(** * langgraph-learning-demo: conversation transition and progress tracking

    A shallow embedding of
      - [src/examples/basic_chatbot.py]  ([ChatState], [chatbot_node],
                                          [run_chatbot_demo]) and
      - [src/core/base.py]               ([ValidationResult], [LearningModule],
                                          [ProgressTracker])
    together with the properties the specification states about them and
    further properties the code shows.

    Conventions of the embedding.
      - A Python [str] is a [string]: the sequence of its UTF-8 bytes.  The
        byte-wise lexicographic order of UTF-8 coincides with the code-point
        order Python uses to compare [str] values.
      - A Python [float] is a primitive binary64 [float]; [int / int] is the
        correctly rounded quotient, which for operands below 2^53 (every list
        length) is the binary64 quotient of the two converted operands.
      - A Python [dict] with string keys is a [gmap string _]; a [TypedDict]
        or a dict built from a literal with fixed keys is a record.
      - A call that may raise returns a [Py.Result]: [inl e] when the
        exception [e] escapes, [inr v] when the call returns [v].
      - [datetime.now()] reads an explicit clock that is threaded through. *)

From Stdlib Require Import ZArith String.
From Stdlib Require Import Floats.PrimFloat Numbers.Cyclic.Int63.Uint63.
From stdpp Require Import gmap strings list sorting.

(* 0.8 is read as the nearest binary64 value, as Python reads it. *)
Set Warnings "-inexact-float".

(** ** Python values and exceptions *)

Module Py.

(** An exception object, an instance of [Exception] (what
    [except Exception] catches): its class name and what [str(e)] returns. *)
Record Exception := mkException { exc_class : string; str : string }.

(** The outcome of a call: an escaping exception or a returned value. *)
Definition Result (A : Type) : Type := (Exception + A)%type.

Definition ret {A} (a : A) : Result A := inr a.
Definition raise {A} (e : Exception) : Result A := inl e.

Definition bind {A B} (m : Result A) (k : A → Result B) : Result B :=
  match m with
  | inl e => inl e
  | inr a => k a
  end.

(** [try: body / except Exception as e: handler e]. *)
Definition try_except {A} (body : Result A) (handler : Exception → Result A)
  : Result A :=
  match body with
  | inl e => handler e
  | inr a => inr a
  end.

(** The call returned (no exception reached the caller). *)
Definition returns {A} (m : Result A) : Prop := ∃ a, m = inr a.

(** A number as [/] and a literal produce it: an [int] or a [float]. *)
Inductive Num := Int (z : Z) | Float (f : float).

(** [float(z)] for an [int] in the range of list lengths. *)
Definition float_of_int (z : Z) : float := PrimFloat.of_uint63 (Uint63.of_Z z).

Definition ZeroDivisionError : Exception :=
  mkException "ZeroDivisionError" "division by zero".

(** [a / b] on two [int]s: true division, raising on a zero divisor. *)
Definition truediv (a b : Z) : Result float :=
  if decide (b = 0%Z) then raise ZeroDivisionError
  else ret (float_of_int a / float_of_int b)%float.

(** Truthiness of [d.get(key)] for a string-valued key: a missing key
    ([None]) and the empty string are both false. *)
Definition truthy (v : option string) : bool :=
  match v with
  | Some (String _ _) => true
  | Some EmptyString | None => false
  end.

End Py.

Declare Scope py_scope.
Delimit Scope py_scope with py.
Notation "x <- m ;; k" := (Py.bind m (λ x, k))
  (at level 100, m at next level, right associativity) : py_scope.
Open Scope py_scope.

(** ** The conversation state machine ([src/examples/basic_chatbot.py]) *)

Module Chatbot.

(** [langchain_core.messages]: the two message classes the example uses. *)
Inductive BaseMessage :=
| HumanMessage (content : string)
| AIMessage (content : string).

Definition content (m : BaseMessage) : string :=
  match m with HumanMessage c | AIMessage c => c end.

Global Instance BaseMessage_eq_dec : EqDecision BaseMessage.
Proof. solve_decision. Defined.

(** [class ChatState(TypedDict)].  A field is [None] when the dictionary
    lacks the key, which [state.get] tolerates. *)
Record ChatState := mkChatState {
  messages : option (list BaseMessage);
  user_input : option string;
  response : option string
}.

(** The reply-producing collaborator: the constructed [ChatOpenAI] client.
    [invoke] either returns a message or raises. *)
Record ChatOpenAI := mkChatOpenAI {
  invoke : list BaseMessage → Py.Result BaseMessage
}.

(** The stored history of a state, as [state.get("messages", [])]. *)
Definition history (state : ChatState) : list BaseMessage :=
  default [] (messages state).

(** The history [chatbot_node] hands to [llm.invoke]: the stored history
    ([state.get("messages", [])]) followed by the pending input as a
    [HumanMessage] when that input is truthy. *)
Definition prompt (state : ChatState) : list BaseMessage :=
  match user_input state with
  | Some (String _ _ as text) => history state ++ [HumanMessage text]
  | Some EmptyString | None => history state
  end.

(** [chatbot_node].  The client is built by [ChatOpenAI(...)] before the
    [try]; [llm] is that constructed client, so the only call that can fail
    inside the [try] is [llm.invoke].  [messages.append] updates the list
    object held by [state] in place and the returned dictionary holds the
    same object; the model returns the value of that list at the return,
    and [history state] is its value at the call. *)
Definition chatbot_node (llm : ChatOpenAI) (state : ChatState)
  : Py.Result ChatState :=
  (* messages = state.get("messages", []) *)
  let messages := default [] (messages state) in
  (* if state.get("user_input"): messages.append(HumanMessage(...)) *)
  let messages :=
    if Py.truthy (user_input state)
    then messages ++ [HumanMessage (default "" (user_input state))]
    else messages in
  Py.try_except
    (ai_response <- invoke llm messages ;;
     let messages := messages ++ [ai_response] in
     Py.ret {| messages := Some messages;
               response := Some (content ai_response);
               user_input := Some "" |})
    (λ e,
     let error_message := "Sorry, I encountered an error: " +:+ Py.str e in
     let messages := messages ++ [AIMessage error_message] in
     Py.ret {| messages := Some messages;
               response := Some error_message;
               user_input := Some "" |}).

(** A collaborator stub that answers every history with the same reply. *)
Definition always_replies (text : string) : ChatOpenAI :=
  {| invoke := λ _, Py.ret (AIMessage text) |}.

(** A collaborator stub whose every call raises. *)
Definition always_fails (e : Py.Exception) : ChatOpenAI :=
  {| invoke := λ _, Py.raise e |}.

(** The notice [chatbot_node] builds from a caught exception. *)
Definition error_notice (e : Py.Exception) : string :=
  "Sorry, I encountered an error: " +:+ Py.str e.

(** What the node appends and reports for each outcome of the collaborator. *)
Definition absorbed (outcome : Py.Result BaseMessage) : BaseMessage :=
  match outcome with
  | inr reply => reply
  | inl e => AIMessage (error_notice e)
  end.

End Chatbot.

(** ** [chatbot_node] with the message list as a shared object *)

(** [chatbot_node] does not copy the history: [state.get("messages", [])]
    is the list object the caller's dictionary holds, [messages.append]
    changes that object, and the returned dictionary holds it too.  This
    module embeds the function over a store of list objects, so that what a
    caller sees of its own list after the call, and what a second call on
    the same dictionary starts from, can be stated. *)
Module InPlace.

(** The store: the contents of every list object, by identity. *)
Definition loc := positive.

(** A [ChatState] dictionary whose "messages" value is a reference to a
    list object. *)
Record ChatState := mkChatState {
  messages : option loc;
  user_input : option string;
  response : option string
}.

(** The current contents of the list object [l]. *)
Definition contents (heap : gmap loc (list Chatbot.BaseMessage)) (l : loc)
  : list Chatbot.BaseMessage :=
  default [] (heap !! l).

(** [l.append(m)]. *)
Definition append (l : loc) (m : Chatbot.BaseMessage)
  (heap : gmap loc (list Chatbot.BaseMessage))
  : gmap loc (list Chatbot.BaseMessage) :=
  <[l := contents heap l ++ [m]]> heap.

(** [chatbot_node], statement by statement, on the store. *)
Definition chatbot_node (llm : Chatbot.ChatOpenAI) (state : ChatState)
  (heap : gmap loc (list Chatbot.BaseMessage))
  : Py.Result ChatState * gmap loc (list Chatbot.BaseMessage) :=
  (* messages = state.get("messages", []): the stored list object, or a
     new empty list when the key is missing *)
  let '(messages, heap) :=
    match messages state with
    | Some l => (l, heap)
    | None => let l := fresh (dom heap) in (l, <[l := []]> heap)
    end in
  (* if state.get("user_input"): messages.append(HumanMessage(...)) *)
  let heap :=
    if Py.truthy (user_input state)
    then append messages
           (Chatbot.HumanMessage (default "" (user_input state))) heap
    else heap in
  (* try: ai_response = llm.invoke(messages) *)
  match Chatbot.invoke llm (contents heap messages) with
  | inr ai_response =>
      (* messages.append(ai_response); return {...} *)
      let heap := append messages ai_response heap in
      (Py.ret {| messages := Some messages;
                 response := Some (Chatbot.content ai_response);
                 user_input := Some "" |}, heap)
  | inl e =>
      (* except Exception as e: ... *)
      let error_message := "Sorry, I encountered an error: " +:+ Py.str e in
      let heap := append messages (Chatbot.AIMessage error_message) heap in
      (Py.ret {| messages := Some messages;
                 response := Some error_message;
                 user_input := Some "" |}, heap)
  end.







End InPlace.

(** ** Learning modules ([src/core/base.py]) *)

Module Learning.

Inductive DifficultyLevel := BEGINNER | INTERMEDIATE | ADVANCED | EXPERT.

(** [DifficultyLevel.value]. *)
Definition difficulty_value (d : DifficultyLevel) : string :=
  match d with
  | BEGINNER => "beginner"
  | INTERMEDIATE => "intermediate"
  | ADVANCED => "advanced"
  | EXPERT => "expert"
  end.

Inductive ExerciseType := CODING | QUIZ | PROJECT | REFLECTION.

(** [@dataclass class Exercise], after [__post_init__] (the two lists are
    never [None]). *)
Module Exercise.
Record t := mk {
  exercise_id : string;
  title : string;
  description : string;
  exercise_type : ExerciseType;
  difficulty : DifficultyLevel;
  estimated_time : Z;
  instructions : string;
  starter_code : option string;
  solution_code : option string;
  validation_criteria : list string;
  hints : list string
}.
End Exercise.

(** The data attributes of a [LearningModule] instance.  The abstract
    methods play no part in [get_progress_summary]. *)
Record LearningModule := mkLearningModule {
  module_id : string;
  title : string;
  description : string;
  prerequisites : list string;
  difficulty : DifficultyLevel;
  estimated_duration : Z;
  learning_objectives : list string;
  exercises : list Exercise.t;
  resources : list (gmap string string)
}.

(** The dictionary [get_progress_summary] returns, key by key. *)
Module Summary.
Record t := mk {
  module_id : string;
  title : string;
  total_exercises : nat;
  completed_exercises : nat;
  progress_percentage : Py.Num;
  is_complete : bool;
  difficulty : string;
  estimated_duration : Z
}.
End Summary.

(** [len([ex for ex in self.exercises if ex.exercise_id in completed_exercises])]. *)
Definition completed_count (self : LearningModule)
  (completed_exercises : list string) : nat :=
  length (filter (λ ex, Exercise.exercise_id ex ∈ completed_exercises)
                 (exercises self)).

(** [LearningModule.get_progress_summary]. *)
Definition get_progress_summary (self : LearningModule)
  (completed_exercises : list string) : Py.Result Summary.t :=
  let total_exercises := length (exercises self) in
  let completed_count := completed_count self completed_exercises in
  progress_percentage <-
    (if decide (0 < total_exercises)
     then ratio <- Py.truediv (Z.of_nat completed_count) (Z.of_nat total_exercises) ;;
          Py.ret (Py.Float (ratio * Py.float_of_int 100)%float)
     else Py.ret (Py.Int 0)) ;;
  Py.ret {| Summary.module_id := module_id self;
            Summary.title := title self;
            Summary.total_exercises := total_exercises;
            Summary.completed_exercises := completed_count;
            Summary.progress_percentage := progress_percentage;
            Summary.is_complete := bool_decide (completed_count = total_exercises);
            Summary.difficulty := difficulty_value (difficulty self);
            Summary.estimated_duration := estimated_duration self |}.

(** An exercise with the given identifier (the other fields are fixed). *)
Definition exercise (exercise_id : string) : Exercise.t :=
  {| Exercise.exercise_id := exercise_id;
     Exercise.title := "Exercise";
     Exercise.description := "";
     Exercise.exercise_type := CODING;
     Exercise.difficulty := BEGINNER;
     Exercise.estimated_time := 10;
     Exercise.instructions := "";
     Exercise.starter_code := None;
     Exercise.solution_code := None;
     Exercise.validation_criteria := [];
     Exercise.hints := [] |}.

(** A module as [LearningModule.__init__] leaves it (default difficulty
    and duration), with the given exercises attached. *)
Definition module_with (module_id : string) (exercises : list Exercise.t)
  : LearningModule :=
  {| module_id := module_id;
     title := "Module";
     description := "";
     prerequisites := [];
     difficulty := BEGINNER;
     estimated_duration := 60;
     learning_objectives := [];
     exercises := exercises;
     resources := [] |}.

(** The defaults of [LearningModule.__init__]'s signature. *)
Definition default_difficulty : DifficultyLevel := BEGINNER.
Definition default_estimated_duration : Z := 60.

(** [LearningModule.__init__]: [prerequisites or []] turns a missing
    ([None]) or empty argument into the empty list; the three lists of
    objectives, exercises and resources start empty. *)
Definition new_module (module_id title description : string)
  (prerequisites : option (list string)) (difficulty : DifficultyLevel)
  (estimated_duration : Z) : LearningModule :=
  {| module_id := module_id;
     title := title;
     description := description;
     prerequisites :=
       match prerequisites with
       | Some (_ :: _ as given) => given
       | Some [] | None => []
       end;
     difficulty := difficulty;
     estimated_duration := estimated_duration;
     learning_objectives := [];
     exercises := [];
     resources := [] |}.

(** [LearningModule.validate_prerequisites]:
    [all(prereq in completed_modules for prereq in self.prerequisites)]. *)
Definition validate_prerequisites (self : LearningModule)
  (completed_modules : list string) : bool :=
  forallb (λ prereq, bool_decide (prereq ∈ completed_modules))
          (prerequisites self).

(** The default of [add_resource]'s [resource_type] parameter. *)
Definition default_resource_type : string := "documentation".

(** [LearningModule.add_resource]: [self.resources.append({...})]. *)
Definition add_resource (self : LearningModule)
  (title url resource_type : string) : LearningModule :=
  {| module_id := module_id self;
     title := Learning.title self;
     description := description self;
     prerequisites := prerequisites self;
     difficulty := difficulty self;
     estimated_duration := estimated_duration self;
     learning_objectives := learning_objectives self;
     exercises := exercises self;
     resources :=
       resources self ++
       [ <["title" := title]>
           (<["url" := url]> (<["type" := resource_type]> ∅)) ] |}.

End Learning.

(** ** The progress tracker ([src/core/base.py]) *)

Module Tracker.

(** A [datetime], as a point on the time line. *)
Definition datetime := Z.

(** The wall clock: [reading k] is what the [k]-th call of
    [datetime.now()] returns, [reads] counts the calls made so far. *)
Record Clock := mkClock { reading : nat → datetime; reads : nat }.

(** [datetime.now()]. *)
Definition now (c : Clock) : datetime * Clock :=
  (reading c (reads c), mkClock (reading c) (S (reads c))).

(** One value of [self.student_progress]: the per-student dictionary. *)
Record StudentProgress := mkStudentProgress {
  completed_modules : list string;
  module_scores : gmap string float;
  start_date : datetime;
  last_activity : datetime
}.

(** [class ProgressTracker]: its one attribute. *)
Record ProgressTracker := mkProgressTracker {
  student_progress : gmap string StudentProgress
}.

(** [ProgressTracker.__init__]. *)
Definition init : ProgressTracker := {| student_progress := ∅ |}.

(** [ProgressTracker.record_module_completion].  The method updates the
    student's dictionary in place; the model stores the updated record back
    under [student_id]. *)
Definition record_module_completion (self : ProgressTracker)
  (student_id module_id : string) (score : float) (clock : Clock)
  : ProgressTracker * Clock :=
  (* if student_id not in self.student_progress: create the record *)
  let '(progress, clock) :=
    match student_progress self !! student_id with
    | Some progress => (progress, clock)
    | None =>
        let '(start, clock) := now clock in
        let '(last, clock) := now clock in
        ({| completed_modules := [];
            module_scores := ∅;
            start_date := start;
            last_activity := last |}, clock)
    end in
  let completed :=
    if decide (module_id ∈ completed_modules progress)
    then completed_modules progress
    else completed_modules progress ++ [module_id] in
  let scores := <[module_id := score]> (module_scores progress) in
  let '(last, clock) := now clock in
  ({| student_progress :=
        <[student_id := {| completed_modules := completed;
                           module_scores := scores;
                           start_date := start_date progress;
                           last_activity := last |}]>
          (student_progress self) |}, clock).

(** The dictionary [get_student_progress] returns, key by key. *)
Module Report.
Record t := mk {
  student_id : string;
  completed_modules : list string;
  module_scores : gmap string float;
  overall_progress : float;
  start_date : option datetime;
  last_activity : option datetime
}.
End Report.

(** The local constant of [get_student_progress]:
    [total_modules = 9  # Based on our learning system design]. *)
Definition total_modules : Z := 9.

(** [ProgressTracker.get_student_progress]. *)
Definition get_student_progress (self : ProgressTracker) (student_id : string)
  : Py.Result Report.t :=
  match student_progress self !! student_id with
  | None =>
      Py.ret {| Report.student_id := student_id;
                Report.completed_modules := [];
                Report.module_scores := ∅;
                Report.overall_progress := 0.0%float;
                Report.start_date := None;
                Report.last_activity := None |}
  | Some progress =>
      let completed_count := length (completed_modules progress) in
      ratio <- Py.truediv (Z.of_nat completed_count) total_modules ;;
      Py.ret {| Report.student_id := student_id;
                Report.completed_modules := completed_modules progress;
                Report.module_scores := module_scores progress;
                Report.overall_progress := (ratio * Py.float_of_int 100)%float;
                Report.start_date := Some (start_date progress);
                Report.last_activity := Some (last_activity progress) |}
  end.

(** [ProgressTracker.recommend_next_steps].  [list.sort()] on [str] values
    orders them lexicographically ([String.le]). *)
Definition recommend_next_steps (self : ProgressTracker) (student_id : string)
  (available_modules : list string) : Py.Result (list string) :=
  progress <- get_student_progress self student_id ;;
  let completed : gset string := list_to_set (Report.completed_modules progress) in
  let recommendations := filter (λ module, module ∉ completed) available_modules in
  let recommendations := merge_sort String.le recommendations in
  Py.ret (take 3 recommendations).

(** *** Sequences of calls *)

(** One call [record_module_completion(student, module, score)]. *)
Record Completion := mkCompletion {
  student : string;
  module : string;
  score : float
}.

(** The tracker and the clock after a sequence of completion calls. *)
Fixpoint run (calls : list Completion) (self : ProgressTracker) (clock : Clock)
  : ProgressTracker * Clock :=
  match calls with
  | [] => (self, clock)
  | c :: calls =>
      let '(self, clock) :=
        record_module_completion self (student c) (module c) (score c) clock in
      run calls self clock
  end.

(** The list stored as a student's completed modules ([[]] when unknown). *)
Definition completed_of (self : ProgressTracker) (student_id : string)
  : list string :=
  from_option completed_modules [] (student_progress self !! student_id).

(** The score map stored for a student ([{}] when unknown). *)
Definition scores_of (self : ProgressTracker) (student_id : string)
  : gmap string float :=
  from_option module_scores ∅ (student_progress self !! student_id).

(** How often [module_id] occurs in a list of module ids. *)
Definition occurrences (module_id : string) (l : list string) : nat :=
  length (filter (λ k, k = module_id) l).

(** The invariant of one stored record. *)
Definition record_ok (p : StudentProgress) : Prop :=
  NoDup (completed_modules p) ∧
  list_to_set (completed_modules p) = dom (module_scores p).

(** Every stored record satisfies the invariant. *)
Definition tracker_ok (self : ProgressTracker) : Prop :=
  ∀ student_id p, student_progress self !! student_id = Some p → record_ok p.

(** The snapshot reported for a student the tracker has never seen. *)
Definition zero_snapshot (student_id : string) : Report.t :=
  {| Report.student_id := student_id;
     Report.completed_modules := [];
     Report.module_scores := ∅;
     Report.overall_progress := 0.0%float;
     Report.start_date := None;
     Report.last_activity := None |}.

(** A clock that starts at [t0] and advances by one at every reading. *)
Definition ticking (t0 : datetime) : Clock :=
  {| reading := λ k, (t0 + Z.of_nat k)%Z; reads := 0 |}.

(** A sample history: one student records the same module twice and then
    a second module. *)
Definition sample_calls : list Completion :=
  [ mkCompletion "s" "m" 0.8%float;
    mkCompletion "s" "m" 0.8%float;
    mkCompletion "s" "n" 1.0%float ].

(** The record the tracker holds for student "s" after [sample_calls] on
    the clock [ticking 0]: four readings were taken by the first call's
    creation and refresh and the second call's refresh, the last by the
    third call. *)
Definition sample_record : StudentProgress :=
  {| completed_modules := ["m"; "n"];
     module_scores := <["n" := 1.0%float]> (<["m" := 0.8%float]> ∅);
     start_date := 0%Z;
     last_activity := 4%Z |}.

(** The score of the last call in [calls] that recorded [module_id] for
    [student_id], if there is one. *)
Definition last_score (student_id module_id : string)
  (calls : list Completion) : option float :=
  last (score <$>
          filter (λ c, student c = student_id ∧ module c = module_id) calls).

(** Some call in [calls] recorded [module_id] for [student_id]. *)
Definition recorded (student_id module_id : string)
  (calls : list Completion) : Prop :=
  ∃ c, c ∈ calls ∧ student c = student_id ∧ module c = module_id.

(** A clock whose readings never go backwards. *)
Definition monotone (clock : Clock) : Prop :=
  ∀ i j, i ≤ j → (reading clock i ≤ reading clock j)%Z.

(** The timestamps of every stored record are in order, and no start date
    lies after a reading the clock has yet to give. *)
Definition stamps_ok (self : ProgressTracker) (clock : Clock) : Prop :=
  ∀ student_id p,
    student_progress self !! student_id = Some p →
    (start_date p ≤ last_activity p)%Z ∧
    ∀ k, reads clock ≤ k → (start_date p ≤ reading clock k)%Z.

End Tracker.

(** ** Validation results ([src/core/base.py]) *)

Module Validation.

(** [@dataclass class ValidationResult]. *)
Record ValidationResult := mkValidationResult {
  is_valid : bool;
  score : float;
  passed_criteria : list string;
  failed_criteria : list string;
  detailed_feedback : string;
  suggestions : list string;
  execution_logs : option string
}.

(** One entry of a list, as [f"  â€¢ {criterion}"] renders it (the marker
    is the byte sequence the source file holds). *)
Definition bullet (entry : string) : string := "  â€¢ " +:+ entry.

(** What [feedback_parts.extend([...])] adds for one list: nothing when the
    list is empty (it is falsy), otherwise an empty line, the heading and
    one bullet per entry. *)
Definition listing (heading : string) (entries : list string) : list string :=
  match entries with
  | [] => []
  | _ :: _ => "" :: heading :: (bullet <$> entries)
  end.

Section Feedback.

(** The format [f"{self.score:.1%}"] of the score, a built-in rendering of
    floats. *)
Variable format_percent : float → string.

(** The list [feedback_parts] at the [return] of
    [generate_student_feedback]. *)
Definition feedback_parts (self : ValidationResult) : list string :=
  [ "Score: " +:+ format_percent (score self);
    "Status: " +:+ (if is_valid self then "âœ… Passed" else "âŒ Failed");
    "";
    "Detailed Feedback:";
    detailed_feedback self ]
  ++ listing "âœ… Passed Criteria:" (passed_criteria self)
  ++ listing "âŒ Failed Criteria:" (failed_criteria self)
  ++ listing "ðŸ’¡ Suggestions for Improvement:" (suggestions self).

(** [ValidationResult.generate_student_feedback]:
    the parts joined by newlines. *)
Definition generate_student_feedback (self : ValidationResult) : string :=
  String.concat (String (Ascii.ascii_of_nat 10) "") (feedback_parts self).

End Feedback.

End Validation.

(** ** The interactive driver ([run_chatbot_demo] in
    [src/examples/basic_chatbot.py]) *)

Module Demo.
Import Chatbot.

(** What the program writes to standard output: the prompt that [input]
    shows before it reads a line, or a line written by [print]. *)
Inductive Output := Prompt (text : string) | Print (line : string).

(** The lines written by [print], in order. *)
Definition printed (out : list Output) : list string :=
  omap (λ o, match o with Print line => Some line | Prompt _ => None end) out.

(** ["\n"]. *)
Definition nl : string := String (Ascii.ascii_of_nat 10) "".

(** ["=" * 40]. *)
Definition rule : string := "========================================".

Definition banner : list Output :=
  [ Print "🤖 LangGraph Basic Chatbot Demo";
    Print rule;
    Print "Type 'quit' to exit the conversation";
    Print rule ].

Definition quit_words : list string := ["quit"; "exit"; "bye"].

(** [input] raises [EOFError] when standard input is exhausted. *)
Definition EOFError : Py.Exception :=
  Py.mkException "EOFError" "EOF when reading a line".

(** [d[key]] raises [KeyError(key)] on a missing key; its [str] is the
    [repr] of the key. *)
Definition KeyError (key : string) : Py.Exception :=
  Py.mkException "KeyError" ("'" +:+ key +:+ "'").

(** The two lines of the [except] branch of the loop. *)
Definition report_error (e : Py.Exception) : list Output :=
  [ Print ("❌ Error: " +:+ Py.str e);
    Print "Please check your OpenAI API key and try again." ].

(** The initial [conversation_state] of [run_chatbot_demo]. *)
Definition initial_state : ChatState :=
  {| messages := Some []; user_input := Some ""; response := Some "" |}.

Section Loop.

(** [str.strip] and [str.lower], and [chatbot.invoke] of the compiled
    graph: library code the driver calls.  A call of [invoke] that raises
    is taken to leave the dictionary it was given as it was. *)
Variables (strip lower : string → string).
Variable invoke : ChatState → Py.Result ChatState.

(** The [while True] loop of [run_chatbot_demo].  [lines] are the lines
    that successive calls of [input] return.  The result is what was written
    and either the exception that left the loop or the [conversation_state]
    held when [break] was reached. *)
Fixpoint conversation_loop (lines : list string) (conversation_state : ChatState)
  : list Output * Py.Result ChatState :=
  match lines with
  | [] => ([Prompt (nl +:+ "👤 You: ")], Py.raise EOFError)
  | line :: lines =>
      let user_input := strip line in
      if decide (lower user_input ∈ quit_words) then
        ([ Prompt (nl +:+ "👤 You: ");
           Print (nl +:+ "👋 Goodbye! Thanks for trying the LangGraph chatbot!") ],
         Py.ret conversation_state)
      else if negb (Py.truthy (Some user_input)) then
        let '(out, final) := conversation_loop lines conversation_state in
        (Prompt (nl +:+ "👤 You: ") :: out, final)
      else
        (* conversation_state["user_input"] = user_input *)
        let conversation_state :=
          {| messages := messages conversation_state;
             user_input := Some user_input;
             response := response conversation_state |} in
        match invoke conversation_state with
        | inr result =>
            (* conversation_state = result, then the f-string reads
               result['response'] *)
            match response result with
            | Some text =>
                let '(out, final) := conversation_loop lines result in
                (Prompt (nl +:+ "👤 You: ") :: Print ("🤖 Bot: " +:+ text) :: out,
                 final)
            | None =>
                let '(out, final) := conversation_loop lines result in
                (Prompt (nl +:+ "👤 You: ")
                   :: report_error (KeyError "response") ++ out,
                 final)
            end
        | inl e =>
            let '(out, final) := conversation_loop lines conversation_state in
            (Prompt (nl +:+ "👤 You: ") :: report_error e ++ out, final)
        end
  end.

(** What one pass through the loop body does with a stripped line that is
    neither a quit word nor empty: the lines it prints and the
    [conversation_state] it leaves for the next pass. *)
Definition turn (user_input : string) (conversation_state : ChatState)
  : list Output * ChatState :=
  let conversation_state :=
    {| messages := messages conversation_state;
       user_input := Some user_input;
       response := response conversation_state |} in
  match invoke conversation_state with
  | inr result =>
      match response result with
      | Some text => ([Print ("🤖 Bot: " +:+ text)], result)
      | None => (report_error (KeyError "response"), result)
      end
  | inl e => (report_error e, conversation_state)
  end.

(** [run_chatbot_demo]: the banner, then the loop from the initial state. *)
Definition run_chatbot_demo (lines : list string)
  : list Output * Py.Result ChatState :=
  let '(out, final) := conversation_loop lines initial_state in
  (banner ++ out, final).

End Loop.

End Demo.

(** * Properties *)

(** ** The conversation transition *)

Section Conversation.
Import Chatbot.

(** The node calls the collaborator exactly on [prompt state], and its
    result is a function of the outcome of that one call. *)
Lemma chatbot_node_unfold llm state :
  chatbot_node llm state =
  Py.ret {| messages := Some (prompt state ++ [absorbed (invoke llm (prompt state))]);
            response := Some (content (absorbed (invoke llm (prompt state))));
            user_input := Some "" |}.
Proof.
  unfold chatbot_node, prompt, history.
  destruct (user_input state) as [[|a text]|]; simpl;
    by destruct (invoke llm _) as [e|reply].
Qed.

Lemma prompt_pending state text :
  user_input state = Some text → text ≠ "" →
  prompt state = history state ++ [HumanMessage text].
Proof.
  intros Hin Hne. unfold prompt. rewrite Hin.
  by destruct text.
Qed.

Lemma prompt_idle state :
  user_input state = Some "" ∨ user_input state = None →
  prompt state = history state.
Proof. unfold prompt. by intros [-> | ->]. Qed.

Lemma string_app_empty_r (s : string) : s +:+ "" = s.
Proof.
  induction s as [|a s IH]; [done|].
  change (String a (s +:+ "") = String a s). by rewrite IH.
Qed.

Lemma app_two {A} (l : list A) (x y : A) : (l ++ [x]) ++ [y] = l ++ [x; y].
Proof. by rewrite <- app_assoc. Qed.

End Conversation.

(** C1.  Whenever the pending input is non-empty and the collaborator
    returns a reply, one transition returns the state whose history is the
    old history followed by the user message for the pending text and then
    the reply, whose response is the reply's text and whose pending input is
    the empty string.  In particular the state with empty history and
    pending input "Hi", with a collaborator that always answers "Hello!",
    becomes the state with history [User "Hi"; Assistant "Hello!"], empty
    pending input and response "Hello!". *)
Theorem chatbot_node_reply_appended :
  (∀ llm state text reply,
     Chatbot.user_input state = Some text → text ≠ "" →
     Chatbot.invoke llm (Chatbot.history state ++ [Chatbot.HumanMessage text])
       = Py.ret reply →
     Chatbot.chatbot_node llm state =
       Py.ret {| Chatbot.messages :=
                   Some (Chatbot.history state ++ [Chatbot.HumanMessage text; reply]);
                 Chatbot.user_input := Some "";
                 Chatbot.response := Some (Chatbot.content reply) |}) ∧
  Chatbot.chatbot_node (Chatbot.always_replies "Hello!")
    {| Chatbot.messages := Some [];
       Chatbot.user_input := Some "Hi";
       Chatbot.response := Some "" |} =
    Py.ret {| Chatbot.messages :=
                Some [Chatbot.HumanMessage "Hi"; Chatbot.AIMessage "Hello!"];
              Chatbot.user_input := Some "";
              Chatbot.response := Some "Hello!" |}.
Proof.
  split; [|reflexivity].
  intros llm state text reply Hin Hne Hreply.
  rewrite chatbot_node_unfold, (prompt_pending _ _ Hin Hne), Hreply.
  simpl. by rewrite app_two.
Qed.

Lemma chatbot_node_reply_appended_witness :
  Chatbot.chatbot_node (Chatbot.always_replies "I understand.")
    {| Chatbot.messages :=
         Some [Chatbot.HumanMessage "Previous message";
               Chatbot.AIMessage "Previous response"];
       Chatbot.user_input := Some "New message";
       Chatbot.response := Some "" |} =
    Py.ret {| Chatbot.messages :=
                Some [Chatbot.HumanMessage "Previous message";
                      Chatbot.AIMessage "Previous response";
                      Chatbot.HumanMessage "New message";
                      Chatbot.AIMessage "I understand."];
              Chatbot.user_input := Some "";
              Chatbot.response := Some "I understand." |}.
Proof.
  exact (proj1 chatbot_node_reply_appended
           (Chatbot.always_replies "I understand.")
           {| Chatbot.messages :=
                Some [Chatbot.HumanMessage "Previous message";
                      Chatbot.AIMessage "Previous response"];
              Chatbot.user_input := Some "New message";
              Chatbot.response := Some "" |}
           "New message" (Chatbot.AIMessage "I understand.")
           eq_refl ltac:(discriminate) eq_refl).
Defined.

(** C2.  Whenever the pending input is non-empty and the collaborator
    raises, one transition still returns: the returned history is the old
    history followed by exactly the user message and one assistant message
    whose text is the fixed notice with the failure's description after it,
    the response is that notice and so contains the description, and the
    pending input is the empty string.  No collaborator failure ever
    reaches the caller, whatever the state. *)
Theorem chatbot_node_failure_absorbed :
  (∀ llm state text e,
     Chatbot.user_input state = Some text → text ≠ "" →
     Chatbot.invoke llm (Chatbot.history state ++ [Chatbot.HumanMessage text])
       = Py.raise e →
     Chatbot.chatbot_node llm state =
       Py.ret {| Chatbot.messages :=
                   Some (Chatbot.history state ++
                         [Chatbot.HumanMessage text;
                          Chatbot.AIMessage
                            ("Sorry, I encountered an error: " +:+ Py.str e)]);
                 Chatbot.user_input := Some "";
                 Chatbot.response :=
                   Some ("Sorry, I encountered an error: " +:+ Py.str e) |} ∧
     ∃ result before after,
       Chatbot.chatbot_node llm state = Py.ret result ∧
       Chatbot.response result = Some (before +:+ Py.str e +:+ after) ∧
       length (Chatbot.history result) = length (Chatbot.history state) + 2) ∧
  (∀ llm state, Py.returns (Chatbot.chatbot_node llm state)).
Proof.
  split.
  - intros llm state text e Hin Hne Hfail.
    assert (Chatbot.chatbot_node llm state = Py.ret
      {| Chatbot.messages :=
           Some (Chatbot.history state ++
                 [Chatbot.HumanMessage text;
                  Chatbot.AIMessage (Chatbot.error_notice e)]);
         Chatbot.user_input := Some "";
         Chatbot.response := Some (Chatbot.error_notice e) |}) as Hnode.
    { rewrite chatbot_node_unfold, (prompt_pending _ _ Hin Hne), Hfail.
      simpl. by rewrite app_two. }
    split; [exact Hnode|].
    eexists _, "Sorry, I encountered an error: ", "".
    split; [exact Hnode|]. split.
    + simpl. unfold Chatbot.error_notice. by rewrite string_app_empty_r.
    + unfold Chatbot.history at 1. simpl. rewrite length_app. simpl. lia.
  - intros llm state. rewrite chatbot_node_unfold. by eexists.
Qed.

Lemma chatbot_node_failure_absorbed_witness :
  Chatbot.chatbot_node
    (Chatbot.always_fails (Py.mkException "Exception" "API Error"))
    {| Chatbot.messages := Some [];
       Chatbot.user_input := Some "Hello";
       Chatbot.response := Some "" |} =
    Py.ret {| Chatbot.messages :=
                Some [Chatbot.HumanMessage "Hello";
                      Chatbot.AIMessage
                        "Sorry, I encountered an error: API Error"];
              Chatbot.user_input := Some "";
              Chatbot.response :=
                Some "Sorry, I encountered an error: API Error" |}.
Proof.
  exact (proj1 (proj1 chatbot_node_failure_absorbed
           (Chatbot.always_fails (Py.mkException "Exception" "API Error"))
           {| Chatbot.messages := Some [];
              Chatbot.user_input := Some "Hello";
              Chatbot.response := Some "" |}
           "Hello" (Py.mkException "Exception" "API Error")
           eq_refl ltac:(discriminate) eq_refl)).
Defined.

(** C3.  Whenever the pending input is the empty string and the
    collaborator returns a reply, one transition returns the state whose
    history is the old history followed by that reply alone: no user
    message is appended. *)
Theorem chatbot_node_idle_appends_reply_only :
  ∀ llm state reply,
    Chatbot.user_input state = Some "" →
    Chatbot.invoke llm (Chatbot.history state) = Py.ret reply →
    Chatbot.chatbot_node llm state =
      Py.ret {| Chatbot.messages := Some (Chatbot.history state ++ [reply]);
                Chatbot.user_input := Some "";
                Chatbot.response := Some (Chatbot.content reply) |}.
Proof.
  intros llm state reply Hin Hreply.
  rewrite chatbot_node_unfold, prompt_idle, Hreply by auto. done.
Qed.

Lemma chatbot_node_idle_appends_reply_only_witness :
  Chatbot.chatbot_node (Chatbot.always_replies "How can I help?")
    {| Chatbot.messages := Some [Chatbot.HumanMessage "Previous message"];
       Chatbot.user_input := Some "";
       Chatbot.response := Some "" |} =
    Py.ret {| Chatbot.messages :=
                Some [Chatbot.HumanMessage "Previous message";
                      Chatbot.AIMessage "How can I help?"];
              Chatbot.user_input := Some "";
              Chatbot.response := Some "How can I help?" |}.
Proof.
  exact (chatbot_node_idle_appends_reply_only
           (Chatbot.always_replies "How can I help?")
           {| Chatbot.messages := Some [Chatbot.HumanMessage "Previous message"];
              Chatbot.user_input := Some "";
              Chatbot.response := Some "" |}
           (Chatbot.AIMessage "How can I help?") eq_refl eq_refl).
Defined.

(** The result of a transition depends on the collaborator only through
    the outcome of its one call, on [prompt state]. *)
Lemma chatbot_node_same_outcome llm1 llm2 state :
  Chatbot.invoke llm1 (Chatbot.prompt state) =
  Chatbot.invoke llm2 (Chatbot.prompt state) →
  Chatbot.chatbot_node llm1 state = Chatbot.chatbot_node llm2 state.
Proof. intros Heq. by rewrite !chatbot_node_unfold, Heq. Qed.

(** ** Progress through one learning module *)

Lemma truediv_nonzero (a b : Z) :
  b ≠ 0%Z →
  Py.truediv a b = Py.ret (Py.float_of_int a / Py.float_of_int b)%float.
Proof. intros Hb. unfold Py.truediv. by case_decide. Qed.

Lemma get_progress_summary_nonempty self completed :
  Learning.exercises self ≠ [] →
  Learning.get_progress_summary self completed =
    Py.ret
      {| Learning.Summary.module_id := Learning.module_id self;
         Learning.Summary.title := Learning.title self;
         Learning.Summary.total_exercises := length (Learning.exercises self);
         Learning.Summary.completed_exercises :=
           Learning.completed_count self completed;
         Learning.Summary.progress_percentage :=
           Py.Float
             (Py.float_of_int (Z.of_nat (Learning.completed_count self completed))
              / Py.float_of_int (Z.of_nat (length (Learning.exercises self)))
              * Py.float_of_int 100)%float;
         Learning.Summary.is_complete :=
           bool_decide (Learning.completed_count self completed
                        = length (Learning.exercises self));
         Learning.Summary.difficulty :=
           Learning.difficulty_value (Learning.difficulty self);
         Learning.Summary.estimated_duration :=
           Learning.estimated_duration self |}.
Proof.
  intros Hne. unfold Learning.get_progress_summary.
  destruct (Learning.exercises self) as [|ex exs] eqn:Hexs; [done|].
  case_decide as Hpos; [|simpl in Hpos; lia].
  rewrite truediv_nonzero by (simpl; lia). done.
Qed.

Lemma get_progress_summary_empty self completed :
  Learning.exercises self = [] →
  Learning.get_progress_summary self completed =
    Py.ret
      {| Learning.Summary.module_id := Learning.module_id self;
         Learning.Summary.title := Learning.title self;
         Learning.Summary.total_exercises := 0;
         Learning.Summary.completed_exercises := 0;
         Learning.Summary.progress_percentage := Py.Int 0;
         Learning.Summary.is_complete := true;
         Learning.Summary.difficulty :=
           Learning.difficulty_value (Learning.difficulty self);
         Learning.Summary.estimated_duration :=
           Learning.estimated_duration self |}.
Proof.
  intros Hnil. unfold Learning.get_progress_summary, Learning.completed_count.
  rewrite Hnil. done.
Qed.

(** C9.  For every module and every list of completed exercise ids,
    [get_progress_summary] returns (it never raises, so no division by zero
    is attempted); when the module has at least one exercise the reported
    percentage is the float (count / total * 100), where count is the number
    of the module's own exercises whose id is in the completed list and
    total the number of the module's exercises; when the module has no
    exercise the reported percentage is the integer 0. *)
Theorem get_progress_summary_percentage :
  ∀ self completed,
    ∃ summary,
      Learning.get_progress_summary self completed = Py.ret summary ∧
      (Learning.exercises self ≠ [] →
       Learning.Summary.progress_percentage summary =
         Py.Float
           (Py.float_of_int
              (Z.of_nat
                 (length (filter (λ ex, Learning.Exercise.exercise_id ex ∈ completed)
                                 (Learning.exercises self))))
            / Py.float_of_int (Z.of_nat (length (Learning.exercises self)))
            * Py.float_of_int 100)%float) ∧
      (Learning.exercises self = [] →
       Learning.Summary.progress_percentage summary = Py.Int 0).
Proof.
  intros self completed.
  destruct (decide (Learning.exercises self = [])) as [Hnil|Hne].
  - eexists. split; [by apply get_progress_summary_empty|]. by split.
  - eexists. split; [by apply get_progress_summary_nonempty|]. by split.
Qed.

(** ** The progress tracker *)

Section Progress.
Import Tracker.

Implicit Types (self : ProgressTracker) (clock : Clock).
Implicit Types (calls : list Completion) (p : StudentProgress).

(** *** One call of [record_module_completion] *)

Lemma record_lookup self s m x clock :
  ∃ p, student_progress (record_module_completion self s m x clock).1 !! s
         = Some p ∧
       completed_modules p =
         (if decide (m ∈ completed_of self s) then completed_of self s
          else completed_of self s ++ [m]) ∧
       module_scores p = <[m := x]> (scores_of self s).
Proof.
  unfold record_module_completion, completed_of, scores_of.
  destruct (student_progress self !! s) as [q|]; simpl;
    rewrite lookup_insert_eq; by eexists.
Qed.

Lemma record_lookup_ne self s s' m x clock :
  s ≠ s' →
  student_progress (record_module_completion self s m x clock).1 !! s'
    = student_progress self !! s'.
Proof.
  intros Hne. unfold record_module_completion.
  destruct (student_progress self !! s) as [q|]; simpl;
    by rewrite lookup_insert_ne.
Qed.

Lemma record_completed self s m x clock :
  m ∈ completed_of (record_module_completion self s m x clock).1 s.
Proof.
  destruct (record_lookup self s m x clock) as (p & Hp & Hc & _).
  unfold completed_of at 1. rewrite Hp. simpl. rewrite Hc.
  case_decide; [done|]. apply elem_of_app. right. by apply list_elem_of_singleton.
Qed.

Lemma record_keeps self s s' m x k clock :
  k ∈ completed_of self s' →
  k ∈ completed_of (record_module_completion self s m x clock).1 s'.
Proof.
  intros Hk. destruct (decide (s = s')) as [<-|Hne].
  - destruct (record_lookup self s m x clock) as (p & Hp & Hc & _).
    unfold completed_of at 1. rewrite Hp. simpl. rewrite Hc.
    case_decide; [done|]. apply elem_of_app. by left.
  - unfold completed_of at 1. by rewrite record_lookup_ne.
Qed.

Lemma record_preserves_ok self s m x clock :
  tracker_ok self → tracker_ok (record_module_completion self s m x clock).1.
Proof.
  intros Hok s' p' Hp'. destruct (decide (s = s')) as [<-|Hne].
  - destruct (record_lookup self s m x clock) as (p & Hp & Hc & Hs).
    rewrite Hp in Hp'. injection Hp' as <-.
    assert (NoDup (completed_of self s) ∧
            list_to_set (completed_of self s) =@{gset string} dom (scores_of self s))
      as [Hnd Hdom].
    { unfold completed_of, scores_of.
      destruct (student_progress self !! s) as [q|] eqn:Hq; simpl.
      - apply (Hok s q Hq).
      - split; [constructor|]. by rewrite dom_empty_L. }
    split; rewrite Hc, ?Hs, ?dom_insert_L, <- ?Hdom.
    + case_decide as Hin; [done|].
      apply NoDup_app. split; [done|]. split; [|apply NoDup_singleton].
      intros k Hk ->%list_elem_of_singleton. done.
    + case_decide as Hin.
      * apply set_eq. intros k.
        rewrite elem_of_union, elem_of_singleton, elem_of_list_to_set.
        split; [by right|]. by intros [->|Hk].
      * apply set_eq. intros k.
        rewrite elem_of_union, elem_of_singleton, !elem_of_list_to_set,
          elem_of_app, list_elem_of_singleton.
        tauto.
  - rewrite record_lookup_ne in Hp' by done. by apply (Hok s' p').
Qed.

Lemma init_ok : tracker_ok init.
Proof. intros s p Hp. simpl in Hp. by rewrite lookup_empty in Hp. Qed.

(** *** Sequences of calls *)

Lemma run_app calls1 calls2 self clock :
  run (calls1 ++ calls2) self clock =
  run calls2 (run calls1 self clock).1 (run calls1 self clock).2.
Proof.
  revert self clock. induction calls1 as [|c calls1 IH]; intros self clock.
  - done.
  - simpl. destruct (record_module_completion _ _ _ _ _) as [self' clock'].
    apply IH.
Qed.

Lemma run_cons c calls self clock :
  run (c :: calls) self clock =
  run calls
    (record_module_completion self (student c) (module c) (score c) clock).1
    (record_module_completion self (student c) (module c) (score c) clock).2.
Proof. simpl. by destruct (record_module_completion _ _ _ _ _). Qed.

Lemma run_preserves_ok calls self clock :
  tracker_ok self → tracker_ok (run calls self clock).1.
Proof.
  revert self clock. induction calls as [|c calls IH]; intros self clock Hok.
  - done.
  - rewrite run_cons. apply IH. by apply record_preserves_ok.
Qed.

Lemma run_frame calls self clock s :
  (∀ c, c ∈ calls → student c ≠ s) →
  student_progress (run calls self clock).1 !! s = student_progress self !! s.
Proof.
  revert self clock. induction calls as [|c calls IH]; intros self clock Hother.
  - done.
  - rewrite run_cons, IH.
    + apply record_lookup_ne, Hother, list_elem_of_here.
    + intros c' Hc'. apply Hother. by apply list_elem_of_further.
Qed.

Lemma run_keeps calls self clock s k :
  k ∈ completed_of self s → k ∈ completed_of (run calls self clock).1 s.
Proof.
  revert self clock. induction calls as [|c calls IH]; intros self clock Hk.
  - done.
  - rewrite run_cons. apply IH. by apply record_keeps.
Qed.

Lemma run_recorded calls self clock c :
  c ∈ calls → module c ∈ completed_of (run calls self clock).1 (student c).
Proof.
  revert self clock. induction calls as [|c' calls IH]; intros self clock Hc.
  - by apply elem_of_nil in Hc.
  - rewrite run_cons. apply elem_of_cons in Hc as [->|Hc].
    + apply run_keeps, record_completed.
    + by apply IH.
Qed.

Lemma completed_of_known self s k :
  k ∈ completed_of self s →
  ∃ p, student_progress self !! s = Some p ∧ k ∈ completed_modules p.
Proof.
  unfold completed_of. destruct (student_progress self !! s) as [p|]; simpl.
  - intros Hk. by exists p.
  - intros Hk. by apply elem_of_nil in Hk.
Qed.

Lemma recommend_next_steps_unfold self s available :
  recommend_next_steps self s available =
  Py.ret (take 3 (merge_sort String.le
                    (filter (λ m, m ∉ completed_of self s) available))).
Proof.
  unfold recommend_next_steps, get_student_progress, completed_of.
  destruct (student_progress self !! s) as [p|]; simpl;
    do 3 f_equal; apply list_filter_iff; intros m.
  - by rewrite elem_of_list_to_set.
  - change (m ∉ list_to_set (C:=gset string) [] ↔ m ∉ []).
    by rewrite elem_of_list_to_set.
Qed.

Lemma occurrences_absent (m : string) (l : list string) :
  m ∉ l → occurrences m l = 0.
Proof.
  unfold occurrences. induction l as [|k l IH]; intros Hm; [done|].
  apply not_elem_of_cons in Hm as [Hne Hm].
  rewrite filter_cons. case_decide; [congruence|]. by apply IH.
Qed.

Lemma occurrences_NoDup (m : string) (l : list string) :
  NoDup l → m ∈ l → occurrences m l = 1.
Proof.
  induction 1 as [|k l Hk Hnd IH]; intros Hm.
  - by apply elem_of_nil in Hm.
  - unfold occurrences. rewrite filter_cons. case_decide as Heq.
    + subst k. simpl. f_equal. by apply occurrences_absent.
    + apply elem_of_cons in Hm as [->|Hm]; [done|]. by apply IH.
Qed.

End Progress.

(** C10.  After any sequence of [record_module_completion] calls on a new
    tracker, every stored student record lists no module twice, and the
    modules it lists are exactly the keys of its score map: each completed
    module has a score and each scored module is listed as completed. *)
Theorem completed_modules_match_scores :
  ∀ calls clock student_id p,
    Tracker.student_progress (Tracker.run calls Tracker.init clock).1
      !! student_id = Some p →
    NoDup (Tracker.completed_modules p) ∧
    list_to_set (Tracker.completed_modules p)
      =@{gset string} dom (Tracker.module_scores p) ∧
    ∀ m, m ∈ Tracker.completed_modules p
         ↔ is_Some (Tracker.module_scores p !! m).
Proof.
  intros calls clock student_id p Hp.
  destruct (run_preserves_ok calls Tracker.init clock init_ok student_id p Hp)
    as [Hnd Hdom].
  split; [done|]. split; [done|].
  intros m. by rewrite <- elem_of_dom, <- Hdom, elem_of_list_to_set.
Qed.

Lemma completed_modules_match_scores_witness :
  NoDup (Tracker.completed_modules Tracker.sample_record) ∧
  list_to_set (Tracker.completed_modules Tracker.sample_record)
    =@{gset string} dom (Tracker.module_scores Tracker.sample_record) ∧
  ∀ m, m ∈ Tracker.completed_modules Tracker.sample_record
       ↔ is_Some (Tracker.module_scores Tracker.sample_record !! m).
Proof.
  exact (completed_modules_match_scores
           Tracker.sample_calls (Tracker.ticking 0%Z) "s" Tracker.sample_record
           eq_refl).
Defined.

(** C5.  Recording the same student and module twice, with scores [x] and
    then [y], after any earlier calls, leaves the module listed exactly once
    among the student's completed modules (the second call leaves that list
    as the first left it) and leaves [y] as its score.  In particular two
    calls with score 0.8 on a new tracker leave the completed list ["m"] and
    the score map {"m": 0.8}. *)
Theorem record_module_completion_idempotent :
  (∀ calls clock s m x y,
     let once :=
       (Tracker.run (calls ++ [Tracker.mkCompletion s m x]) Tracker.init clock).1 in
     let twice :=
       (Tracker.run (calls ++ [Tracker.mkCompletion s m x;
                               Tracker.mkCompletion s m y])
                    Tracker.init clock).1 in
     ∃ p, Tracker.student_progress twice !! s = Some p ∧
          Tracker.occurrences m (Tracker.completed_modules p) = 1 ∧
          Tracker.completed_modules p = Tracker.completed_of once s ∧
          Tracker.module_scores p !! m = Some y) ∧
  (∀ clock,
     ∃ p, Tracker.student_progress
            (Tracker.run [Tracker.mkCompletion "s" "m" 0.8%float;
                          Tracker.mkCompletion "s" "m" 0.8%float]
                         Tracker.init clock).1 !! "s" = Some p ∧
          Tracker.completed_modules p = ["m"] ∧
          Tracker.module_scores p = {["m" := 0.8%float]}).
Proof.
  split.
  - intros calls clock s m x y once twice.
    assert (Tracker.tracker_ok twice) as Hok
      by apply run_preserves_ok, init_ok.
    subst once twice.
    revert Hok.
    rewrite (assoc_L (++) calls [_] [_] : calls ++ [_; _] = _).
    rewrite (run_app (calls ++ [_]) [_]).
    destruct (Tracker.run (calls ++ [_]) Tracker.init clock) as [once clock1]
      eqn:Honce.
    assert (m ∈ Tracker.completed_of once s) as Hm.
    { replace once with
        (Tracker.run (calls ++ [Tracker.mkCompletion s m x]) Tracker.init clock).1
        by by rewrite Honce.
      apply (run_recorded _ _ _ (Tracker.mkCompletion s m x)).
      apply elem_of_app. right. apply list_elem_of_here. }
    simpl.
    destruct (record_lookup once s m y clock1) as (p & Hp & Hc & Hs).
    destruct (Tracker.record_module_completion once s m y clock1)
      as [twice clock2].
    simpl in *. intros Hok. exists p.
    rewrite decide_True in Hc by done.
    split; [done|]. split; [|split; [done|]].
    + apply occurrences_NoDup; [apply (Hok s p Hp)|by rewrite Hc].
    + by rewrite Hs, lookup_insert_eq.
  - intros clock. eexists. split; [reflexivity|]. split; [reflexivity|].
    simpl. by rewrite insert_insert_eq.
Qed.

(** C4.  For every student the tracker knows, [get_student_progress]
    returns a report whose overall progress is the float
    (number of completed modules / 9 * 100): the divisor is the constant 9
    whatever the tracker holds, and the method takes no list of available
    modules.  Every student with at least one recorded completion is known. *)
Theorem overall_progress_fixed_denominator :
  (∀ self student_id p,
     Tracker.student_progress self !! student_id = Some p →
     ∃ report,
       Tracker.get_student_progress self student_id = Py.ret report ∧
       Tracker.Report.completed_modules report = Tracker.completed_modules p ∧
       Tracker.Report.overall_progress report =
         (Py.float_of_int (Z.of_nat (length (Tracker.completed_modules p)))
          / Py.float_of_int 9 * Py.float_of_int 100)%float) ∧
  (∀ calls clock c,
     c ∈ calls →
     ∃ p, Tracker.student_progress (Tracker.run calls Tracker.init clock).1
            !! Tracker.student c = Some p ∧
          Tracker.module c ∈ Tracker.completed_modules p).
Proof.
  split.
  - intros self student_id p Hp. unfold Tracker.get_student_progress.
    rewrite Hp. unfold Tracker.total_modules.
    rewrite truediv_nonzero by done. by eexists.
  - intros calls clock c Hc.
    by apply completed_of_known, run_recorded.
Qed.

Lemma overall_progress_fixed_denominator_witness :
  ∃ report,
    Tracker.get_student_progress
      (Tracker.run Tracker.sample_calls Tracker.init (Tracker.ticking 0%Z)).1 "s"
      = Py.ret report ∧
    Tracker.Report.completed_modules report = ["m"; "n"] ∧
    Tracker.Report.overall_progress report =
      (Py.float_of_int 2 / Py.float_of_int 9 * Py.float_of_int 100)%float.
Proof.
  exact (proj1 overall_progress_fixed_denominator
           (Tracker.run Tracker.sample_calls Tracker.init (Tracker.ticking 0%Z)).1
           "s" Tracker.sample_record eq_refl).
Defined.

(** The divisor stays 9 when more than nine modules are completed: ten
    completions are reported as more than 100 percent. *)
Example overall_progress_ten_modules :
  (report <-
     Tracker.get_student_progress
       (Tracker.run
          ((λ m, Tracker.mkCompletion "s" m 1.0%float) <$>
             ["m01"; "m02"; "m03"; "m04"; "m05"; "m06"; "m07"; "m08"; "m09"; "m10"])
          Tracker.init (Tracker.ticking 0%Z)).1 "s" ;;
   Py.ret (Tracker.Report.overall_progress report))
  = Py.ret (Py.float_of_int 10 / Py.float_of_int 9 * Py.float_of_int 100)%float.
Proof. vm_compute. reflexivity. Qed.

(** C7.  For every student the tracker holds no record of,
    [get_student_progress] returns (it does not raise) the zero snapshot:
    no completed module, no score, overall progress 0.0 and no timestamps.
    A student with no recorded completion, after any sequence of calls for
    other students, is such a student; so is "never_seen" on a new
    tracker. *)
Theorem unknown_student_zero_snapshot :
  (∀ self student_id,
     Tracker.student_progress self !! student_id = None →
     Tracker.get_student_progress self student_id =
       Py.ret {| Tracker.Report.student_id := student_id;
                 Tracker.Report.completed_modules := [];
                 Tracker.Report.module_scores := ∅;
                 Tracker.Report.overall_progress := 0.0%float;
                 Tracker.Report.start_date := None;
                 Tracker.Report.last_activity := None |}) ∧
  (∀ calls clock student_id,
     (∀ c, c ∈ calls → Tracker.student c ≠ student_id) →
     Tracker.get_student_progress
       (Tracker.run calls Tracker.init clock).1 student_id =
       Py.ret (Tracker.zero_snapshot student_id)) ∧
  Tracker.get_student_progress Tracker.init "never_seen" =
    Py.ret (Tracker.zero_snapshot "never_seen").
Proof.
  assert (∀ self student_id,
            Tracker.student_progress self !! student_id = None →
            Tracker.get_student_progress self student_id =
              Py.ret (Tracker.zero_snapshot student_id)) as Hzero.
  { intros self student_id Hnone. unfold Tracker.get_student_progress.
    by rewrite Hnone. }
  split; [exact Hzero|]. split; [|by apply Hzero].
  intros calls clock student_id Hother. apply Hzero.
  by rewrite run_frame.
Qed.

Lemma unknown_student_zero_snapshot_witness :
  Tracker.get_student_progress
    (Tracker.run Tracker.sample_calls Tracker.init (Tracker.ticking 0%Z)).1
    "never_seen" =
    Py.ret {| Tracker.Report.student_id := "never_seen";
              Tracker.Report.completed_modules := [];
              Tracker.Report.module_scores := ∅;
              Tracker.Report.overall_progress := 0.0%float;
              Tracker.Report.start_date := None;
              Tracker.Report.last_activity := None |}.
Proof.
  exact (proj1 unknown_student_zero_snapshot
           (Tracker.run Tracker.sample_calls Tracker.init (Tracker.ticking 0%Z)).1
           "never_seen" eq_refl).
Defined.

(** C6.  [recommend_next_steps] returns the first three (or fewer)
    elements of the lexicographically sorted list of the available module
    ids that are not among the student's completed modules.  That list
    exists, and the result is the same whichever sorted arrangement of the
    remaining ids is taken, so the result is determined by the student's
    completed modules and the list of available ids.  On a new tracker
    the recommendation for "new_student" out of m1, m2, m3 is all three in
    order, and m1, m3 once m2 has been recorded with score 1.0. *)
Theorem recommend_next_steps_sorted_prefix :
  (∀ self student_id available,
     ∃ remaining,
       Sorted String.le remaining ∧
       remaining ≡ₚ
         filter (λ m, m ∉ Tracker.completed_of self student_id) available ∧
       Tracker.recommend_next_steps self student_id available
         = Py.ret (take 3 remaining)) ∧
  (∀ self student_id available remaining,
     Sorted String.le remaining →
     remaining ≡ₚ
       filter (λ m, m ∉ Tracker.completed_of self student_id) available →
     Tracker.recommend_next_steps self student_id available
       = Py.ret (take 3 remaining)) ∧
  (∀ self1 self2 student_id available,
     Tracker.completed_of self1 student_id
       = Tracker.completed_of self2 student_id →
     Tracker.recommend_next_steps self1 student_id available
       = Tracker.recommend_next_steps self2 student_id available) ∧
  Tracker.recommend_next_steps Tracker.init "new_student" ["m1"; "m2"; "m3"]
    = Py.ret ["m1"; "m2"; "m3"] ∧
  (∀ clock,
     Tracker.recommend_next_steps
       (Tracker.record_module_completion
          Tracker.init "new_student" "m2" 1.0%float clock).1
       "new_student" ["m1"; "m2"; "m3"]
     = Py.ret ["m1"; "m3"]).
Proof.
  split; [|split; [|split; [|split]]].
  - intros self student_id available. eexists.
    split; [apply (Sorted_merge_sort String.le)|].
    split; [apply merge_sort_Permutation|].
    apply recommend_next_steps_unfold.
  - intros self student_id available remaining Hsorted Hperm.
    rewrite recommend_next_steps_unfold. do 2 f_equal.
    apply (Sorted_unique String.le).
    + apply (Sorted_merge_sort String.le).
    + done.
    + by rewrite merge_sort_Permutation.
  - intros self1 self2 student_id available Hsame.
    by rewrite !recommend_next_steps_unfold, Hsame.
  - reflexivity.
  - intros clock. reflexivity.
Qed.

Lemma recommend_next_steps_sorted_prefix_witness :
  Tracker.recommend_next_steps
    (Tracker.run Tracker.sample_calls Tracker.init (Tracker.ticking 0%Z)).1
    "s" ["q"; "n"; "p"; "m"; "o"; "r"]
  = Py.ret (take 3 ["o"; "p"; "q"; "r"]).
Proof.
  apply (proj1 (proj2 recommend_next_steps_sorted_prefix)
           (Tracker.run Tracker.sample_calls Tracker.init (Tracker.ticking 0%Z)).1
           "s" ["q"; "n"; "p"; "m"; "o"; "r"] ["o"; "p"; "q"; "r"]).
  - apply (bool_decide_unpack _). vm_compute. exact I.
  - apply (bool_decide_unpack _). vm_compute. exact I.
Defined.

Lemma get_progress_summary_percentage_witness :
  ∃ summary,
    Learning.get_progress_summary
      (Learning.module_with "module_01"
         [Learning.exercise "e1"; Learning.exercise "e2"; Learning.exercise "e3"])
      ["e1"; "e3"; "e9"] = Py.ret summary ∧
    Learning.Summary.progress_percentage summary =
      Py.Float (Py.float_of_int 2 / Py.float_of_int 3 * Py.float_of_int 100)%float.
Proof.
  destruct (get_progress_summary_percentage
              (Learning.module_with "module_01"
                 [Learning.exercise "e1"; Learning.exercise "e2";
                  Learning.exercise "e3"])
              ["e1"; "e3"; "e9"]) as (summary & Hret & Hsome & _).
  exists summary. split; [exact Hret|].
  exact (Hsome ltac:(discriminate)).
Defined.

(** * Further properties of the code *)

(** ** Learning modules *)

Section LearningModules.
Import Learning.

Implicit Types (self : LearningModule) (completed : list string).

Lemma length_filter_all {A} (P : A → Prop) `{!∀ x, Decision (P x)} (l : list A) :
  length (filter P l) = length l ↔ Forall P l.
Proof.
  induction l as [|x l IH].
  - split; [constructor|done].
  - rewrite filter_cons. case_decide as HP.
    + simpl. rewrite Forall_cons. split.
      * intros Hlen. split; [done|]. apply IH. lia.
      * intros [_ Hall]. f_equal. by apply IH.
    + split.
      * intros Hlen. pose proof (length_filter P l). simpl in Hlen. lia.
      * intros Hall. by apply Forall_cons in Hall as [? _].
Qed.

Lemma filter_agree {A} (P Q : A → Prop)
  `{!∀ x, Decision (P x)} `{!∀ x, Decision (Q x)} (l : list A) :
  (∀ x, x ∈ l → P x ↔ Q x) → filter P l = filter Q l.
Proof.
  induction l as [|x l IH]; intros Hagree; [done|].
  rewrite !filter_cons.
  assert (P x ↔ Q x) as Hx by apply Hagree, list_elem_of_here.
  rewrite IH by (intros y Hy; apply Hagree; by apply list_elem_of_further).
  do 2 case_decide; tauto.
Qed.

Lemma get_progress_summary_returns self completed :
  ∃ summary,
    get_progress_summary self completed = Py.ret summary ∧
    Summary.total_exercises summary = length (exercises self) ∧
    Summary.completed_exercises summary = completed_count self completed ∧
    Summary.is_complete summary =
      bool_decide (completed_count self completed = length (exercises self)).
Proof.
  destruct (decide (exercises self = [])) as [Hnil|Hne].
  - eexists. split; [by apply get_progress_summary_empty|]. simpl.
    unfold completed_count. rewrite Hnil. done.
  - eexists. split; [by apply get_progress_summary_nonempty|]. done.
Qed.

Lemma validate_prerequisites_spec self completed :
  validate_prerequisites self completed = true ↔
  ∀ prereq, prereq ∈ prerequisites self → prereq ∈ completed.
Proof.
  unfold validate_prerequisites. rewrite forallb_forall. split.
  - intros Hall prereq Hin. apply list_elem_of_In in Hin.
    by apply (bool_decide_eq_true_1 _), Hall.
  - intros Hall prereq Hin. apply bool_decide_eq_true_2, Hall.
    by apply list_elem_of_In.
Qed.

End LearningModules.

(** X1.  The summary reports a module as complete exactly when the id of
    every exercise of the module is in the completed list; the completed
    count never exceeds the total.  A module without exercises is therefore
    reported complete (while its percentage is the integer 0). *)
Theorem summary_complete_iff_all_exercises_done :
  ∀ self completed,
    ∃ summary,
      Learning.get_progress_summary self completed = Py.ret summary ∧
      (Learning.Summary.is_complete summary = true ↔
       ∀ ex, ex ∈ Learning.exercises self →
             Learning.Exercise.exercise_id ex ∈ completed) ∧
      Learning.Summary.completed_exercises summary
        ≤ Learning.Summary.total_exercises summary ∧
      (Learning.exercises self = [] →
       Learning.Summary.is_complete summary = true ∧
       Learning.Summary.progress_percentage summary = Py.Int 0).
Proof.
  intros self completed.
  destruct (get_progress_summary_returns self completed)
    as (summary & Hret & Htotal & Hcount & Hcomplete).
  exists summary. split; [done|]. split; [|split].
  - rewrite Hcomplete, bool_decide_eq_true. unfold Learning.completed_count.
    rewrite length_filter_all, Forall_forall. done.
  - rewrite Htotal, Hcount. apply length_filter.
  - intros Hnil. rewrite (get_progress_summary_empty _ _ Hnil) in Hret.
    by injection Hret as <-.
Qed.

(** X2.  The summary depends on the completed list only through which of
    the module's own exercise ids it contains: order, repetitions and ids
    of other modules' exercises make no difference. *)
Theorem summary_ignores_foreign_ids :
  ∀ self completed1 completed2,
    (∀ ex, ex ∈ Learning.exercises self →
           Learning.Exercise.exercise_id ex ∈ completed1
           ↔ Learning.Exercise.exercise_id ex ∈ completed2) →
    Learning.get_progress_summary self completed1
      = Learning.get_progress_summary self completed2.
Proof.
  intros self completed1 completed2 Hagree.
  unfold Learning.get_progress_summary, Learning.completed_count.
  by rewrite (filter_agree _ _ _ Hagree).
Qed.

Lemma summary_ignores_foreign_ids_witness :
  Learning.get_progress_summary
    (Learning.module_with "module_01"
       [Learning.exercise "e1"; Learning.exercise "e2"])
    ["e2"; "other"; "e2"]
  = Learning.get_progress_summary
      (Learning.module_with "module_01"
         [Learning.exercise "e1"; Learning.exercise "e2"])
      ["e2"].
Proof.
  apply (summary_ignores_foreign_ids
           (Learning.module_with "module_01"
              [Learning.exercise "e1"; Learning.exercise "e2"])
           ["e2"; "other"; "e2"] ["e2"]).
  intros ex Hex. simpl in Hex.
  apply elem_of_cons in Hex as [->|Hex]; [|apply elem_of_cons in Hex as [->|Hex]].
  - simpl. split; intros Hin; exfalso; revert Hin; apply (bool_decide_unpack _); vm_compute; exact I.
  - simpl. split; intros _; apply (bool_decide_unpack _); vm_compute; exact I.
  - by apply elem_of_nil in Hex.
Defined.

(** X3.  [add_resource] appends exactly one resource: the resources already
    present keep their positions, the new one is last and holds the given
    title, url and type under the keys "title", "url" and "type"; the
    exercises and prerequisites, and so the progress summary and the
    prerequisite check, are unchanged. *)
Theorem add_resource_appends_one :
  ∀ self title url resource_type,
    let self' := Learning.add_resource self title url resource_type in
    length (Learning.resources self') = S (length (Learning.resources self)) ∧
    (∀ i r, Learning.resources self !! i = Some r →
            Learning.resources self' !! i = Some r) ∧
    (∃ r, Learning.resources self' !! length (Learning.resources self) = Some r ∧
          r !! "title" = Some title ∧ r !! "url" = Some url ∧
          r !! "type" = Some resource_type ∧
          dom r = ({["title"; "url"; "type"]} : gset string)) ∧
    (∀ completed,
       Learning.get_progress_summary self' completed
         = Learning.get_progress_summary self completed ∧
       Learning.validate_prerequisites self' completed
         = Learning.validate_prerequisites self completed).
Proof.
  intros self title url resource_type self'. subst self'. simpl.
  split; [|split; [|split]].
  - rewrite length_app. simpl. lia.
  - intros i r Hi. by apply lookup_app_l_Some.
  - eexists. split; [by rewrite list_lookup_middle|].
    split; [done|]. split; [done|]. split; [done|].
    rewrite !dom_insert_L, dom_empty_L.
    apply set_eq. intros k. rewrite !elem_of_union, !elem_of_singleton.
    rewrite elem_of_empty. tauto.
  - done.
Qed.

(** ** The progress tracker, call by call and over histories *)

Section ProgressHistory.
Import Tracker.

Implicit Types (self : ProgressTracker) (clock : Clock).
Implicit Types (calls : list Completion) (p : StudentProgress).

Lemma record_completed_eq self s m x clock :
  completed_of (record_module_completion self s m x clock).1 s =
  if decide (m ∈ completed_of self s) then completed_of self s
  else completed_of self s ++ [m].
Proof.
  destruct (record_lookup self s m x clock) as (p & Hp & Hc & _).
  unfold completed_of at 1. by rewrite Hp.
Qed.

Lemma record_completed_ne self s s' m x clock :
  s ≠ s' →
  completed_of (record_module_completion self s m x clock).1 s'
    = completed_of self s'.
Proof. intros Hne. unfold completed_of. by rewrite record_lookup_ne. Qed.

Lemma record_scores_eq self s m x clock :
  scores_of (record_module_completion self s m x clock).1 s
    = <[m := x]> (scores_of self s).
Proof.
  destruct (record_lookup self s m x clock) as (p & Hp & _ & Hs).
  unfold scores_of at 1. by rewrite Hp.
Qed.

Lemma record_scores_ne self s s' m x clock :
  s ≠ s' →
  scores_of (record_module_completion self s m x clock).1 s'
    = scores_of self s'.
Proof. intros Hne. unfold scores_of. by rewrite record_lookup_ne. Qed.

Lemma record_prefix self s s' m x clock :
  completed_of self s'
    `prefix_of` completed_of (record_module_completion self s m x clock).1 s'.
Proof.
  destruct (decide (s = s')) as [<-|Hne].
  - rewrite record_completed_eq. case_decide; [done|]. by apply prefix_app_r.
  - by rewrite record_completed_ne.
Qed.

Lemma run_prefix calls self clock s :
  completed_of self s `prefix_of` completed_of (run calls self clock).1 s.
Proof.
  revert self clock. induction calls as [|c calls IH]; intros self clock.
  - done.
  - rewrite run_cons. etrans; [apply record_prefix|apply IH].
Qed.

Lemma run_completed_inv calls self clock s m :
  m ∈ completed_of (run calls self clock).1 s →
  m ∈ completed_of self s ∨ recorded s m calls.
Proof.
  revert self clock. induction calls as [|c calls IH]; intros self clock Hm.
  - by left.
  - rewrite run_cons in Hm. apply IH in Hm as [Hm|(c' & Hc' & Hs & Hmod)].
    + destruct (decide (student c = s)) as [Hs|Hne].
      * rewrite <- Hs, record_completed_eq in Hm. rewrite <- Hs.
        case_decide; [by left|].
        apply elem_of_app in Hm as [Hm|Hm%list_elem_of_singleton]; [by left|].
        right. exists c. split; [apply list_elem_of_here|done].
      * rewrite record_completed_ne in Hm by done. by left.
    + right. exists c'. split; [by apply list_elem_of_further|done].
Qed.

Lemma run_scores calls self clock s m :
  scores_of (run calls self clock).1 s !! m =
  match last_score s m calls with
  | Some x => Some x
  | None => scores_of self s !! m
  end.
Proof.
  revert self clock. induction calls as [|c calls IH]; intros self clock.
  - done.
  - rewrite run_cons, IH. unfold last_score. rewrite filter_cons.
    case_decide as Hc.
    + destruct Hc as [<- <-]. rewrite fmap_cons, last_cons.
      destruct (last _); [done|]. by rewrite record_scores_eq, lookup_insert_eq.
    + destruct (last _); [done|].
      destruct (decide (student c = s)) as [Hs|Hne].
      * rewrite <- Hs, record_scores_eq, lookup_insert_ne; [done|].
        intros Hmod. by apply Hc.
      * by rewrite record_scores_ne.
Qed.

Lemma get_student_progress_fields self s :
  ∃ report,
    get_student_progress self s = Py.ret report ∧
    Report.student_id report = s ∧
    Report.completed_modules report = completed_of self s ∧
    Report.module_scores report = scores_of self s.
Proof.
  unfold get_student_progress, completed_of, scores_of.
  destruct (student_progress self !! s) as [p|]; [|by eexists].
  unfold total_modules. rewrite truediv_nonzero by done. by eexists.
Qed.

End ProgressHistory.

(** X4.  Recording a completion for one student changes neither the
    progress report nor the recommendations of any other student. *)
Theorem record_leaves_other_students :
  ∀ self s s' m x clock available,
    s ≠ s' →
    Tracker.get_student_progress
      (Tracker.record_module_completion self s m x clock).1 s'
      = Tracker.get_student_progress self s' ∧
    Tracker.recommend_next_steps
      (Tracker.record_module_completion self s m x clock).1 s' available
      = Tracker.recommend_next_steps self s' available.
Proof.
  intros self s s' m x clock available Hne.
  unfold Tracker.recommend_next_steps, Tracker.get_student_progress.
  by rewrite record_lookup_ne.
Qed.

Lemma record_leaves_other_students_witness :
  Tracker.get_student_progress
    (Tracker.record_module_completion
       (Tracker.run Tracker.sample_calls Tracker.init (Tracker.ticking 0%Z)).1
       "t" "m" 0.5%float (Tracker.ticking 10%Z)).1 "s"
    = Tracker.get_student_progress
        (Tracker.run Tracker.sample_calls Tracker.init (Tracker.ticking 0%Z)).1 "s" ∧
  Tracker.recommend_next_steps
    (Tracker.record_module_completion
       (Tracker.run Tracker.sample_calls Tracker.init (Tracker.ticking 0%Z)).1
       "t" "m" 0.5%float (Tracker.ticking 10%Z)).1 "s" ["m"; "o"]
    = Tracker.recommend_next_steps
        (Tracker.run Tracker.sample_calls Tracker.init (Tracker.ticking 0%Z)).1
        "s" ["m"; "o"].
Proof.
  exact (record_leaves_other_students
           (Tracker.run Tracker.sample_calls Tracker.init (Tracker.ticking 0%Z)).1
           "t" "s" "m" 0.5%float (Tracker.ticking 10%Z) ["m"; "o"]
           ltac:(discriminate)).
Defined.

(** X5.  What is recorded can be read back: right after
    [record_module_completion(s, m, x)], on any tracker, the report for [s]
    lists [m] as completed with score [x], while every other module of [s]
    keeps its completion status and its score. *)
Theorem record_then_report :
  ∀ self s m x clock,
    ∃ report,
      Tracker.get_student_progress
        (Tracker.record_module_completion self s m x clock).1 s
        = Py.ret report ∧
      m ∈ Tracker.Report.completed_modules report ∧
      Tracker.Report.module_scores report !! m = Some x ∧
      ∀ m', m' ≠ m →
        (m' ∈ Tracker.Report.completed_modules report
         ↔ m' ∈ Tracker.completed_of self s) ∧
        Tracker.Report.module_scores report !! m'
          = Tracker.scores_of self s !! m'.
Proof.
  intros self s m x clock.
  destruct (get_student_progress_fields
              (Tracker.record_module_completion self s m x clock).1 s)
    as (report & Hret & _ & Hc & Hs).
  exists report. split; [done|].
  rewrite Hc, Hs, record_scores_eq. split; [apply record_completed|].
  split; [by rewrite lookup_insert_eq|].
  intros m' Hne. split; [|by rewrite lookup_insert_ne].
  rewrite record_completed_eq. case_decide; [done|].
  rewrite elem_of_app, list_elem_of_singleton. tauto.
Qed.

(** X6.  The list of completed modules is append-only: whatever calls
    follow, for whichever students, the list a student had before is a prefix
    of the list the student has afterwards, and it grows by at most one
    module per call. *)
Theorem completed_modules_append_only :
  ∀ calls self clock s,
    Tracker.completed_of self s
      `prefix_of` Tracker.completed_of (Tracker.run calls self clock).1 s ∧
    length (Tracker.completed_of (Tracker.run calls self clock).1 s)
      ≤ length (Tracker.completed_of self s) + length calls.
Proof.
  intros calls self clock s. split; [apply run_prefix|].
  revert self clock. induction calls as [|c calls IH]; intros self clock.
  - simpl. lia.
  - rewrite run_cons. etrans; [apply IH|]. simpl.
    destruct (decide (Tracker.student c = s)) as [<-|Hne].
    + rewrite record_completed_eq. case_decide; [lia|].
      rewrite length_app. simpl. lia.
    + rewrite record_completed_ne by done. lia.
Qed.

(** X7.  On a tracker that started empty, a module is listed as completed
    for a student exactly when some call recorded that module for that
    student: nothing recorded is missing and nothing is listed that was not
    recorded. *)
Theorem completed_iff_recorded :
  ∀ calls clock s m,
    m ∈ Tracker.completed_of (Tracker.run calls Tracker.init clock).1 s
    ↔ ∃ c, c ∈ calls ∧ Tracker.student c = s ∧ Tracker.module c = m.
Proof.
  intros calls clock s m. split.
  - intros Hm. apply run_completed_inv in Hm as [Hm|Hrec]; [|done].
    unfold Tracker.completed_of in Hm. simpl in Hm.
    rewrite lookup_empty in Hm. by apply elem_of_nil in Hm.
  - intros (c & Hc & <- & <-). by apply run_recorded.
Qed.

(** X8.  Last write wins over a whole history: on a tracker that started
    empty, the score stored for a student and a module is the score of the
    last call that recorded that module for that student, and there is no
    score when no call did. *)
Theorem score_is_last_recorded :
  ∀ calls clock s m,
    Tracker.scores_of (Tracker.run calls Tracker.init clock).1 s !! m
    = last (Tracker.score <$>
              filter (λ c, Tracker.student c = s ∧ Tracker.module c = m) calls).
Proof.
  intros calls clock s m. rewrite run_scores.
  fold (Tracker.last_score s m calls).
  destruct (Tracker.last_score s m calls); [done|].
  unfold Tracker.scores_of. simpl. by rewrite lookup_empty.
Qed.

(** *** Timestamps *)

Section Timestamps.
Import Tracker.

Implicit Types (self : ProgressTracker) (clock : Clock).
Implicit Types (calls : list Completion) (p : StudentProgress).

Lemma record_clock self s m x clock :
  reading (record_module_completion self s m x clock).2 = reading clock ∧
  reads clock < reads (record_module_completion self s m x clock).2.
Proof.
  unfold record_module_completion.
  destruct (student_progress self !! s) as [q|]; simpl; split; (done || lia).
Qed.

Lemma record_start_date self s s' m x clock p :
  student_progress self !! s' = Some p →
  ∃ p', student_progress (record_module_completion self s m x clock).1 !! s'
          = Some p' ∧
        start_date p' = start_date p.
Proof.
  intros Hp. destruct (decide (s = s')) as [<-|Hne].
  - unfold record_module_completion. rewrite Hp. simpl.
    rewrite lookup_insert_eq. by eexists.
  - rewrite record_lookup_ne by done. by exists p.
Qed.

Lemma record_preserves_stamps self s m x clock :
  monotone clock → stamps_ok self clock →
  stamps_ok (record_module_completion self s m x clock).1
            (record_module_completion self s m x clock).2.
Proof.
  intros Hmono Hok s' p' Hp'.
  destruct (record_clock self s m x clock) as [Hreading Hreads].
  rewrite Hreading.
  destruct (decide (s = s')) as [<-|Hne].
  - revert Hp' Hreads. unfold record_module_completion.
    destruct (student_progress self !! s) as [q|] eqn:Hq; simpl;
      rewrite lookup_insert_eq; intros [= <-] Hreads; simpl.
    + destruct (Hok s q Hq) as [_ Hnext]. split.
      * by apply Hnext.
      * intros k Hk. apply Hnext. lia.
    + split.
      * apply Hmono. lia.
      * intros k Hk. apply Hmono. lia.
  - rewrite record_lookup_ne in Hp' by done.
    destruct (Hok s' p' Hp') as [Horder Hnext]. split; [done|].
    intros k Hk. apply Hnext. lia.
Qed.

Lemma record_preserves_monotone self s m x clock :
  monotone clock → monotone (record_module_completion self s m x clock).2.
Proof.
  intros Hmono i j Hij.
  destruct (record_clock self s m x clock) as [-> _]. by apply Hmono.
Qed.

Lemma run_preserves_stamps calls self clock :
  monotone clock → stamps_ok self clock →
  stamps_ok (run calls self clock).1 (run calls self clock).2.
Proof.
  revert self clock. induction calls as [|c calls IH]; intros self clock Hm Hok.
  - done.
  - rewrite run_cons. apply IH.
    + by apply record_preserves_monotone.
    + by apply record_preserves_stamps.
Qed.

Lemma ticking_monotone t0 : monotone (ticking t0).
Proof. intros i j Hij. simpl. lia. Qed.

End Timestamps.

(** X9.  A student's start date is fixed by the call that creates the
    record: no later call, for this or any other student, changes it. *)
Theorem start_date_never_changes :
  ∀ calls self clock s p,
    Tracker.student_progress self !! s = Some p →
    ∃ p', Tracker.student_progress (Tracker.run calls self clock).1 !! s
            = Some p' ∧
          Tracker.start_date p' = Tracker.start_date p.
Proof.
  induction calls as [|c calls IH]; intros self clock s p Hp.
  - by exists p.
  - rewrite run_cons.
    destruct (record_start_date self (Tracker.student c) s (Tracker.module c)
                (Tracker.score c) clock p Hp) as (p1 & Hp1 & Hstart1).
    destruct (IH _ (Tracker.record_module_completion self (Tracker.student c)
                      (Tracker.module c) (Tracker.score c) clock).2 s p1 Hp1)
      as (p' & Hp' & Hstart').
    exists p'. split; [done|]. congruence.
Qed.

Lemma start_date_never_changes_witness :
  ∃ p', Tracker.student_progress
          (Tracker.run [Tracker.mkCompletion "s" "o" 0.3%float;
                        Tracker.mkCompletion "t" "m" 0.9%float]
             (Tracker.run Tracker.sample_calls Tracker.init
                (Tracker.ticking 0%Z)).1
             (Tracker.ticking 100%Z)).1 !! "s" = Some p' ∧
        Tracker.start_date p' = Tracker.start_date Tracker.sample_record.
Proof.
  exact (start_date_never_changes
           [Tracker.mkCompletion "s" "o" 0.3%float;
            Tracker.mkCompletion "t" "m" 0.9%float]
           (Tracker.run Tracker.sample_calls Tracker.init (Tracker.ticking 0%Z)).1
           (Tracker.ticking 100%Z) "s" Tracker.sample_record eq_refl).
Defined.

(** X10.  When the clock never goes backwards, every record of a tracker
    that started empty has its start date no later than its last
    activity. *)
Theorem start_date_before_last_activity :
  ∀ calls clock s p,
    Tracker.monotone clock →
    Tracker.student_progress (Tracker.run calls Tracker.init clock).1 !! s
      = Some p →
    (Tracker.start_date p ≤ Tracker.last_activity p)%Z.
Proof.
  intros calls clock s p Hmono Hp.
  assert (Tracker.stamps_ok Tracker.init clock) as Hinit.
  { intros s' p' Hp'. simpl in Hp'. by rewrite lookup_empty in Hp'. }
  by destruct (run_preserves_stamps calls Tracker.init clock Hmono Hinit s p Hp).
Qed.

Lemma start_date_before_last_activity_witness :
  (Tracker.start_date Tracker.sample_record
   ≤ Tracker.last_activity Tracker.sample_record)%Z.
Proof.
  exact (start_date_before_last_activity
           Tracker.sample_calls (Tracker.ticking 0%Z) "s" Tracker.sample_record
           (ticking_monotone 0%Z) eq_refl).
Defined.

(** *** Recommendations *)

Section Recommendations.
Import Tracker.

Implicit Types (self : ProgressTracker) (available : list string).

(** The available modules a student has yet to complete, sorted. *)
Lemma remaining_sorted self s available :
  StronglySorted String.le
    (merge_sort String.le
       (filter (λ m, m ∉ completed_of self s) available)).
Proof. apply (StronglySorted_merge_sort String.le). Qed.

Lemma elem_of_remaining self s available m :
  m ∈ merge_sort String.le (filter (λ m, m ∉ completed_of self s) available)
  ↔ m ∈ available ∧ m ∉ completed_of self s.
Proof. rewrite merge_sort_Permutation, list_elem_of_filter. tauto. Qed.

Lemma recommended_remaining self s available result m :
  recommend_next_steps self s available = Py.ret result →
  m ∈ result → m ∈ available ∧ m ∉ completed_of self s.
Proof.
  rewrite recommend_next_steps_unfold. intros [= <-] Hm.
  by apply elem_of_remaining, (subseteq_take 3).
Qed.

End Recommendations.

(** X11.  [recommend_next_steps] always returns, and what it returns is at
    most three ids in ascending order, each of them available and not yet
    completed by the student; they are the least such ids: every available,
    uncompleted id that is left out is at or above each id returned. *)
Theorem recommendations_least_uncompleted :
  ∀ self s available,
    ∃ result,
      Tracker.recommend_next_steps self s available = Py.ret result ∧
      length result ≤ 3 ∧
      StronglySorted String.le result ∧
      (∀ m, m ∈ result → m ∈ available ∧ m ∉ Tracker.completed_of self s) ∧
      (∀ r m, r ∈ result → m ∈ available →
              m ∉ Tracker.completed_of self s → m ∉ result →
              String.le r m).
Proof.
  intros self s available. eexists.
  split; [apply recommend_next_steps_unfold|].
  pose proof (remaining_sorted self s available) as Hsorted.
  rewrite <- (take_drop 3) in Hsorted.
  split; [|split; [|split]].
  - rewrite length_take. lia.
  - by apply StronglySorted_app_1_l in Hsorted.
  - intros m Hm. apply (subseteq_take 3), elem_of_remaining in Hm. tauto.
  - intros r m Hr Hm Hnew Hout.
    apply (StronglySorted_app_1_elem_of _ _ _ _ _ Hsorted Hr).
    assert (m ∈ merge_sort String.le
              (filter (λ m, m ∉ Tracker.completed_of self s) available)) as Hin
      by by apply elem_of_remaining.
    rewrite <- (take_drop 3) in Hin.
    by apply elem_of_app in Hin as [Hin|Hin].
Qed.

(** X12.  The recommendation does not depend on the order in which the
    available modules are listed: two lists that are permutations of one
    another give the same result. *)
Theorem recommendations_ignore_listing_order :
  ∀ self s available available',
    available ≡ₚ available' →
    Tracker.recommend_next_steps self s available
      = Tracker.recommend_next_steps self s available'.
Proof.
  intros self s available available' Hperm.
  rewrite !recommend_next_steps_unfold. do 2 f_equal.
  apply (Sorted_unique String.le).
  - apply (Sorted_merge_sort String.le).
  - apply (Sorted_merge_sort String.le).
  - by rewrite !merge_sort_Permutation, Hperm.
Qed.

Lemma recommendations_ignore_listing_order_witness :
  Tracker.recommend_next_steps
    (Tracker.run Tracker.sample_calls Tracker.init (Tracker.ticking 0%Z)).1
    "s" ["q"; "n"; "p"; "o"]
  = Tracker.recommend_next_steps
      (Tracker.run Tracker.sample_calls Tracker.init (Tracker.ticking 0%Z)).1
      "s" ["n"; "q"; "p"; "o"].
Proof.
  exact (recommendations_ignore_listing_order
           (Tracker.run Tracker.sample_calls Tracker.init (Tracker.ticking 0%Z)).1
           "s" ["q"; "n"; "p"; "o"] ["n"; "q"; "p"; "o"]
           (perm_swap "n" "q" ["p"; "o"])).
Defined.

(** X13.  The recommendation is empty exactly when the student has
    completed every available module (in particular when none is
    available). *)
Theorem no_recommendation_iff_all_completed :
  ∀ self s available,
    Tracker.recommend_next_steps self s available = Py.ret []
    ↔ ∀ m, m ∈ available → m ∈ Tracker.completed_of self s.
Proof.
  intros self s available. rewrite recommend_next_steps_unfold.
  set (remaining := merge_sort String.le _).
  assert (∀ m, m ∈ remaining ↔ m ∈ available ∧ m ∉ Tracker.completed_of self s)
    as Helem by (intros m; apply elem_of_remaining).
  split.
  - intros [= Htake] m Hm.
    destruct (decide (m ∈ Tracker.completed_of self s)) as [|Hnew]; [done|].
    assert (m ∈ remaining) as Hin by by apply Helem.
    destruct remaining as [|r remaining]; [by apply elem_of_nil in Hin|].
    discriminate Htake.
  - intros Hall. destruct remaining as [|r remaining]; [done|].
    destruct (proj1 (Helem r) (list_elem_of_here _ _)) as [Hr Hnew].
    by destruct Hnew; apply Hall.
Qed.

(** X14.  A module recorded for a student is never recommended to that
    student again, whatever calls follow. *)
Theorem recorded_module_not_recommended :
  ∀ self s m x clock calls clock' available,
    ∃ result,
      Tracker.recommend_next_steps
        (Tracker.run calls
           (Tracker.record_module_completion self s m x clock).1 clock').1
        s available = Py.ret result ∧
      m ∉ result.
Proof.
  intros self s m x clock calls clock' available. eexists.
  split; [apply recommend_next_steps_unfold|].
  intros Hm. apply (subseteq_take 3), elem_of_remaining in Hm as [_ Hnew].
  apply Hnew, run_keeps, record_completed.
Qed.

(** X15.  The prerequisite check composes with the tracker: applied to the
    completed modules the tracker reports for a student, it succeeds exactly
    when every prerequisite of the module has been recorded for that
    student.  A module created without prerequisites (none given, or an
    empty list) passes for every list. *)
Theorem prerequisites_met_iff_recorded :
  (∀ self calls clock s,
     ∃ report,
       Tracker.get_student_progress
         (Tracker.run calls Tracker.init clock).1 s = Py.ret report ∧
       (Learning.validate_prerequisites
          self (Tracker.Report.completed_modules report) = true
        ↔ ∀ prereq, prereq ∈ Learning.prerequisites self →
            ∃ c, c ∈ calls ∧ Tracker.student c = s ∧
                 Tracker.module c = prereq)) ∧
  (∀ module_id title description difficulty duration completed,
     Learning.validate_prerequisites
       (Learning.new_module module_id title description None
          difficulty duration) completed = true ∧
     Learning.validate_prerequisites
       (Learning.new_module module_id title description (Some [])
          difficulty duration) completed = true).
Proof.
  split; [|done].
  intros self calls clock s.
  destruct (get_student_progress_fields
              (Tracker.run calls Tracker.init clock).1 s)
    as (report & Hret & _ & Hc & _).
  exists report. split; [done|].
  rewrite Hc, validate_prerequisites_spec.
  split; intros Hall prereq Hin.
  - specialize (Hall prereq Hin).
    apply run_completed_inv in Hall as [Hm|Hrec]; [|done].
    unfold Tracker.completed_of in Hm. simpl in Hm.
    rewrite lookup_empty in Hm. by apply elem_of_nil in Hm.
  - destruct (Hall prereq Hin) as (c & Hc' & <- & <-). by apply run_recorded.
Qed.

(** ** More on the conversation transition *)

Lemma prompt_cases state :
  (Py.truthy (Chatbot.user_input state) = true ∧
   ∃ text, Chatbot.user_input state = Some text ∧ text ≠ "" ∧
           Chatbot.prompt state
             = Chatbot.history state ++ [Chatbot.HumanMessage text]) ∨
  (Py.truthy (Chatbot.user_input state) = false ∧
   (Chatbot.user_input state = Some "" ∨ Chatbot.user_input state = None) ∧
   Chatbot.prompt state = Chatbot.history state).
Proof.
  unfold Chatbot.prompt.
  destruct (Chatbot.user_input state) as [[|a text]|]; simpl.
  - right. auto.
  - left. split; [done|]. by eexists.
  - right. auto.
Qed.

(** X16.  A transition never drops, reorders or rewrites a message: for
    every collaborator and state it returns a state whose history is the old
    history with one or two messages appended, never none; two exactly when
    the pending input is a non-empty string. *)
Theorem chatbot_node_history_append_only :
  ∀ llm state,
    ∃ result appended,
      Chatbot.chatbot_node llm state = Py.ret result ∧
      Chatbot.history result = Chatbot.history state ++ appended ∧
      (length appended = 1 ∨ length appended = 2) ∧
      (length appended = 2
       ↔ ∃ text, Chatbot.user_input state = Some text ∧ text ≠ "").
Proof.
  intros llm state. rewrite chatbot_node_unfold.
  destruct (prompt_cases state)
    as [(_ & text & Hin & Hne & ->) | (_ & Hidle & ->)].
  - eexists _, [_; _]. split; [done|]. simpl.
    split; [by rewrite <- app_assoc|]. split; [by right|].
    split; [by exists text|done].
  - eexists _, [_]. split; [done|]. simpl.
    split; [done|]. split; [by left|].
    split; [done|]. intros (text & Hin & Hne).
    destruct Hidle as [Hidle|Hidle]; congruence.
Qed.

(** X17.  In the state a transition returns, the response is the text of
    the last message of the history, and the pending input is the empty
    string, whatever the collaborator did. *)
Theorem chatbot_node_response_is_last_message :
  ∀ llm state,
    ∃ result reply,
      Chatbot.chatbot_node llm state = Py.ret result ∧
      last (Chatbot.history result) = Some reply ∧
      Chatbot.response result = Some (Chatbot.content reply) ∧
      Chatbot.user_input result = Some "".
Proof.
  intros llm state. rewrite chatbot_node_unfold.
  eexists _, _. split; [done|]. simpl. split; [apply last_snoc|done].
Qed.

(** X18.  A transition reads only the history and the pending input: a
    state that lacks the "messages" key behaves as one with an empty
    history, a state that lacks "user_input" as one whose pending input is
    the empty string, and the "response" the state came with is ignored. *)
Theorem chatbot_node_reads_history_and_input_only :
  ∀ llm state,
    Chatbot.chatbot_node llm state =
    Chatbot.chatbot_node llm
      {| Chatbot.messages := Some (Chatbot.history state);
         Chatbot.user_input := Some (default "" (Chatbot.user_input state));
         Chatbot.response := None |}.
Proof.
  intros llm state. rewrite !chatbot_node_unfold.
  assert (Chatbot.prompt
            {| Chatbot.messages := Some (Chatbot.history state);
               Chatbot.user_input := Some (default "" (Chatbot.user_input state));
               Chatbot.response := None |} = Chatbot.prompt state) as ->; [|done].
  unfold Chatbot.prompt. simpl.
  by destruct (Chatbot.user_input state) as [[|a text]|].
Qed.

(** ** The interactive driver *)

Section DemoLoop.
Import Chatbot Demo.

Context (strip lower : string → string).
Context (invoke : ChatState → Py.Result ChatState).

Lemma loop_quit line lines state :
  lower (strip line) ∈ quit_words →
  conversation_loop strip lower invoke (line :: lines) state =
    ([ Prompt (nl +:+ "👤 You: ");
       Print (nl +:+ "👋 Goodbye! Thanks for trying the LangGraph chatbot!") ],
     Py.ret state).
Proof. intros Hquit. simpl. by rewrite decide_True. Qed.

Lemma loop_blank line lines state :
  lower (strip line) ∉ quit_words → strip line = "" →
  conversation_loop strip lower invoke (line :: lines) state =
    (Prompt (nl +:+ "👤 You: ")
       :: (conversation_loop strip lower invoke lines state).1,
     (conversation_loop strip lower invoke lines state).2).
Proof.
  intros Hquit Hblank. simpl. rewrite decide_False by done.
  rewrite Hblank. simpl. by destruct (conversation_loop _ _ _ lines state).
Qed.

Lemma loop_turn line lines state :
  lower (strip line) ∉ quit_words → strip line ≠ "" →
  conversation_loop strip lower invoke (line :: lines) state =
    (Prompt (nl +:+ "👤 You: ")
       :: (turn invoke (strip line) state).1
          ++ (conversation_loop strip lower invoke lines
                (turn invoke (strip line) state).2).1,
     (conversation_loop strip lower invoke lines
        (turn invoke (strip line) state).2).2).
Proof.
  intros Hquit Hblank. simpl. rewrite decide_False by done.
  unfold turn.
  destruct (strip line) as [|a text] eqn:Hstrip; [done|]. simpl.
  destruct (invoke _) as [e|result].
  - by destruct (conversation_loop _ _ _ lines _).
  - destruct (response result) as [reply|]; simpl;
      destruct (conversation_loop _ _ _ lines result); reflexivity.
Qed.

Lemma printed_app out1 out2 :
  printed (out1 ++ out2) = printed out1 ++ printed out2.
Proof. apply omap_app. Qed.

End DemoLoop.

(** X19.  Once a line that is a quit word (after [strip] and [lower]) has
    been read, the loop ends normally and reads nothing further: whatever
    lines follow the quit word, the output and the final state are the
    same, and no exception leaves the loop. *)
Theorem demo_stops_at_quit_word :
  ∀ strip lower invoke before line after after' state,
    lower (strip line) ∈ Demo.quit_words →
    Demo.conversation_loop strip lower invoke (before ++ line :: after) state
      = Demo.conversation_loop strip lower invoke
          (before ++ line :: after') state ∧
    Py.returns
      (Demo.conversation_loop strip lower invoke
         (before ++ line :: after) state).2.
Proof.
  intros strip lower invoke before line after after' state Hquit.
  revert state. induction before as [|l before IH]; intros state.
  - simpl app. rewrite !loop_quit by done. split; [done|by eexists].
  - simpl app.
    destruct (decide (lower (strip l) ∈ Demo.quit_words)) as [Hq|Hq].
    { rewrite !loop_quit by done. split; [done|by eexists]. }
    destruct (decide (strip l = "")) as [Hb|Hb].
    { rewrite !loop_blank by done. destruct (IH state) as [Heq Hret].
      rewrite <- Heq. split; [done|exact Hret]. }
    rewrite !loop_turn by done.
    destruct (IH (Demo.turn invoke (strip l) state).2) as [Heq Hret].
    rewrite <- Heq. split; [done|exact Hret].
Qed.

Lemma demo_stops_at_quit_word_witness :
  Demo.conversation_loop (λ s, s) (λ s, s)
    (Chatbot.chatbot_node (Chatbot.always_replies "Hello!"))
    (["Hi"] ++ "quit" :: ["never read"]) Demo.initial_state
  = Demo.conversation_loop (λ s, s) (λ s, s)
      (Chatbot.chatbot_node (Chatbot.always_replies "Hello!"))
      (["Hi"] ++ "quit" :: []) Demo.initial_state ∧
  Py.returns
    (Demo.conversation_loop (λ s, s) (λ s, s)
       (Chatbot.chatbot_node (Chatbot.always_replies "Hello!"))
       (["Hi"] ++ "quit" :: ["never read"]) Demo.initial_state).2.
Proof.
  exact (demo_stops_at_quit_word (λ s, s) (λ s, s)
           (Chatbot.chatbot_node (Chatbot.always_replies "Hello!"))
           ["Hi"] "quit" ["never read"] [] Demo.initial_state
           (list_elem_of_here "quit" ["exit"; "bye"])).
Defined.

(** X20.  Lines that are empty after [strip] never reach the graph: taking
    them out of the input changes neither what [print] writes nor how the
    loop ends and the state it ends in (provided [lower] does not turn the
    empty string into a quit word). *)
Theorem demo_ignores_blank_lines :
  ∀ strip lower invoke lines state,
    lower "" ∉ Demo.quit_words →
    Demo.printed (Demo.conversation_loop strip lower invoke lines state).1
      = Demo.printed
          (Demo.conversation_loop strip lower invoke
             (filter (λ line, strip line ≠ "") lines) state).1 ∧
    (Demo.conversation_loop strip lower invoke lines state).2
      = (Demo.conversation_loop strip lower invoke
           (filter (λ line, strip line ≠ "") lines) state).2.
Proof.
  intros strip lower invoke lines state Hlower.
  revert state. induction lines as [|l lines IH]; intros state; [done|].
  rewrite filter_cons. case_decide as Hb.
  - destruct (decide (lower (strip l) ∈ Demo.quit_words)) as [Hq|Hq].
    { by rewrite !loop_quit. }
    rewrite !loop_turn by done. simpl.
    destruct (IH (Demo.turn invoke (strip l) state).2) as [Hout Hend].
    by rewrite !printed_app, Hout, Hend.
  - rewrite loop_blank by (by rewrite ?Hb). simpl. apply IH.
Qed.

Lemma demo_ignores_blank_lines_witness :
  Demo.printed
    (Demo.conversation_loop (λ s, s) (λ s, s)
       (Chatbot.chatbot_node (Chatbot.always_replies "Hello!"))
       [""; "Hi"; ""; "quit"] Demo.initial_state).1
  = Demo.printed
      (Demo.conversation_loop (λ s, s) (λ s, s)
         (Chatbot.chatbot_node (Chatbot.always_replies "Hello!"))
         (filter (λ line, line ≠ "") [""; "Hi"; ""; "quit"])
         Demo.initial_state).1 ∧
  (Demo.conversation_loop (λ s, s) (λ s, s)
     (Chatbot.chatbot_node (Chatbot.always_replies "Hello!"))
     [""; "Hi"; ""; "quit"] Demo.initial_state).2
  = (Demo.conversation_loop (λ s, s) (λ s, s)
       (Chatbot.chatbot_node (Chatbot.always_replies "Hello!"))
       (filter (λ line, line ≠ "") [""; "Hi"; ""; "quit"])
       Demo.initial_state).2.
Proof.
  apply (demo_ignores_blank_lines (λ s, s) (λ s, s)
           (Chatbot.chatbot_node (Chatbot.always_replies "Hello!"))
           [""; "Hi"; ""; "quit"] Demo.initial_state).
  apply (bool_decide_unpack _). vm_compute. exact I.
Defined.

(** X21.  No failure of the graph ever ends the loop: the only exception
    that leaves it is [EOFError], and it does so exactly when the input runs
    out before any quit word was read. *)
Theorem demo_raises_only_at_end_of_input :
  ∀ strip lower invoke lines state e,
    (Demo.conversation_loop strip lower invoke lines state).2 = Py.raise e
    ↔ e = Demo.EOFError ∧
      ∀ line, line ∈ lines → lower (strip line) ∉ Demo.quit_words.
Proof.
  intros strip lower invoke lines state e.
  revert state. induction lines as [|l lines IH]; intros state.
  - simpl. split.
    + intros [= <-]. split; [done|]. intros line Hline.
      by apply elem_of_nil in Hline.
    + by intros [-> _].
  - destruct (decide (lower (strip l) ∈ Demo.quit_words)) as [Hq|Hq].
    { rewrite loop_quit by done. simpl. split; [done|].
      intros [_ Hnone]. destruct (Hnone l); [apply list_elem_of_here|done]. }
    assert ((∀ line, line ∈ l :: lines →
                     lower (strip line) ∉ Demo.quit_words)
            ↔ ∀ line, line ∈ lines → lower (strip line) ∉ Demo.quit_words)
      as Htail.
    { split; intros Hnone line Hline.
      - by apply Hnone, list_elem_of_further.
      - apply elem_of_cons in Hline as [->|Hline]; [done|by apply Hnone]. }
    rewrite Htail.
    destruct (decide (strip l = "")) as [Hb|Hb].
    + rewrite loop_blank by done. apply IH.
    + rewrite loop_turn by done. apply IH.
Qed.

Section DemoWithNode.
Import Chatbot Demo.

Context (strip lower : string → string).
Context (invoke : ChatState → Py.Result ChatState) (llm : ChatOpenAI).
Context (quit_line : string).
Hypothesis invoke_is_node : ∀ state, invoke state = chatbot_node llm state.
Hypothesis quit_line_quits : lower (strip quit_line) ∈ quit_words.

(** One pass with the node as the graph: the user's text and one more
    message are appended, and that message's text is what is printed. *)
Lemma turn_with_node text state :
  text ≠ "" →
  ∃ reply result,
    turn invoke text state = ([Print ("🤖 Bot: " +:+ content reply)], result) ∧
    history result = history state ++ [HumanMessage text; reply].
Proof using invoke_is_node.
  intros Htext. unfold turn. rewrite invoke_is_node, chatbot_node_unfold.
  rewrite (prompt_pending _ text) by done. simpl.
  eexists _, _. split; [done|]. unfold history at 1. simpl.
  by rewrite <- app_assoc.
Qed.

Lemma lookup_appended_pair {A} (h : list A) (a b : A) :
  (h ++ [a; b]) !! length h = Some a ∧
  (h ++ [a; b]) !! (length h + 1) = Some b.
Proof.
  split.
  - by apply list_lookup_middle.
  - rewrite lookup_app_r by lia.
    by replace (length h + 1 - length h) with 1 by lia.
Qed.

Lemma loop_transcript lines state :
  (∀ line, line ∈ lines →
           strip line ≠ "" ∧ lower (strip line) ∉ quit_words) →
  ∃ out final,
    conversation_loop strip lower invoke (lines ++ [quit_line]) state
      = (out, Py.ret final) ∧
    history state `prefix_of` history final ∧
    length (history final) = length (history state) + 2 * length lines ∧
    length (printed out) = length lines + 1 ∧
    (∀ i line, lines !! i = Some line →
       history final !! (length (history state) + 2 * i)
         = Some (HumanMessage (strip line)) ∧
       ∃ reply,
         history final !! (length (history state) + 2 * i + 1) = Some reply ∧
         printed out !! i = Some ("🤖 Bot: " +:+ content reply)).
Proof using invoke_is_node quit_line_quits.
  revert state. induction lines as [|l lines IH]; intros state Hlines.
  - simpl app. rewrite loop_quit by done. eexists _, _. split; [done|].
    split; [done|]. split; [simpl; lia|]. split; [done|].
    intros i line Hi. by rewrite lookup_nil in Hi.
  - destruct (Hlines l (list_elem_of_here _ _)) as [Hb Hq].
    simpl app. rewrite loop_turn by done.
    destruct (turn_with_node (strip l) state Hb)
      as (reply & result & -> & Hresult).
    destruct (IH result) as (out & final & Hloop & Hprefix & Hlen & Hprinted & Hat).
    { intros line Hline. by apply Hlines, list_elem_of_further. }
    cbn [fst snd]. rewrite Hloop. cbn [fst snd app]. eexists _, _. split; [done|].
    rewrite Hresult in Hprefix, Hlen, Hat. rewrite length_app in Hlen, Hat.
    change (length [HumanMessage (strip l); reply]) with 2 in Hlen, Hat.
    destruct (lookup_appended_pair (history state) (HumanMessage (strip l)) reply)
      as [Hhuman Hreply].
    split; [|split; [|split]].
    { etrans; [|exact Hprefix]. by apply prefix_app_r. }
    { cbn [length]. lia. }
    { change (S (length (printed out)) = S (length lines + 1)). by rewrite Hprinted. }
    intros [|i] line Hi.
    + injection Hi as <-.
      replace (length (history state) + 2 * 0) with (length (history state)) by lia.
      split; [by eapply prefix_lookup_Some|].
      exists reply. split; [by eapply prefix_lookup_Some|done].
    + destruct (Hat i line Hi) as [Hith (reply' & Hreply' & Hshown)].
      replace (length (history state) + 2 * S i)
        with (length (history state) + 2 + 2 * i) by lia.
      split; [done|]. by exists reply'.
Qed.

End DemoWithNode.

(** X22.  A whole session with [chatbot_node] as the graph: when the lines
    typed are neither blank nor quit words and are followed by a quit word,
    [run_chatbot_demo] ends normally with a history of two messages per
    line, the [i]-th line (stripped) as the user message at position [2 i]
    and, right after it, the message whose text was printed as the bot's
    [i]-th answer (after the four banner lines). *)
Theorem demo_session_transcript :
  ∀ strip lower invoke llm lines quit_line,
    (∀ state, invoke state = Chatbot.chatbot_node llm state) →
    (∀ line, line ∈ lines →
             strip line ≠ "" ∧ lower (strip line) ∉ Demo.quit_words) →
    lower (strip quit_line) ∈ Demo.quit_words →
    ∃ out final,
      Demo.run_chatbot_demo strip lower invoke (lines ++ [quit_line])
        = (out, Py.ret final) ∧
      length (Chatbot.history final) = 2 * length lines ∧
      ∀ i line, lines !! i = Some line →
        Chatbot.history final !! (2 * i)
          = Some (Chatbot.HumanMessage (strip line)) ∧
        ∃ reply,
          Chatbot.history final !! (2 * i + 1) = Some reply ∧
          Demo.printed out !! (4 + i)
            = Some ("🤖 Bot: " +:+ Chatbot.content reply).
Proof.
  intros strip lower invoke llm lines quit_line Hnode Hlines Hquit.
  destruct (loop_transcript strip lower invoke llm quit_line Hnode Hquit
              lines Demo.initial_state Hlines)
    as (out & final & Hloop & _ & Hlen & _ & Hat).
  unfold Demo.run_chatbot_demo. rewrite Hloop.
  eexists _, _. split; [done|]. split; [exact Hlen|].
  intros i line Hi. destruct (Hat i line Hi) as [Hhuman (reply & Hreply & Hshown)].
  split; [exact Hhuman|]. exists reply. split; [exact Hreply|].
  rewrite printed_app. exact Hshown.
Qed.

Lemma demo_session_transcript_witness :
  ∃ out final,
    Demo.run_chatbot_demo (λ s, s) (λ s, s)
      (Chatbot.chatbot_node (Chatbot.always_replies "Hello!"))
      (["Hi"; "How are you?"] ++ ["bye"]) = (out, Py.ret final) ∧
    length (Chatbot.history final) = 2 * length ["Hi"; "How are you?"] ∧
    ∀ i line, ["Hi"; "How are you?"] !! i = Some line →
      Chatbot.history final !! (2 * i) = Some (Chatbot.HumanMessage line) ∧
      ∃ reply,
        Chatbot.history final !! (2 * i + 1) = Some reply ∧
        Demo.printed out !! (4 + i)
          = Some ("🤖 Bot: " +:+ Chatbot.content reply).
Proof.
  apply (demo_session_transcript (λ s, s) (λ s, s)
           (Chatbot.chatbot_node (Chatbot.always_replies "Hello!"))
           (Chatbot.always_replies "Hello!") ["Hi"; "How are you?"] "bye").
  - reflexivity.
  - intros line Hline.
    apply elem_of_cons in Hline as [->|Hline];
      [|apply elem_of_cons in Hline as [->|Hline]].
    + split; [discriminate|]. apply (bool_decide_unpack _). vm_compute. exact I.
    + split; [discriminate|]. apply (bool_decide_unpack _). vm_compute. exact I.
    + by apply elem_of_nil in Hline.
  - apply (bool_decide_unpack _). vm_compute. exact I.
Defined.

(** ** Feedback for a validation result *)

Lemma listing_length heading (entries : list string) :
  length (Validation.listing heading entries)
  = length entries + (if decide (entries = []) then 0 else 2).
Proof.
  destruct entries as [|entry entries]; [done|].
  simpl. rewrite length_fmap. lia.
Qed.

Lemma listing_bullets heading (entries : list string) :
  (Validation.bullet <$> entries) `sublist_of` Validation.listing heading entries.
Proof.
  destruct entries as [|entry entries]; [done|].
  unfold Validation.listing. by do 2 apply sublist_cons.
Qed.

(** X23.  The feedback text is the following parts joined by newlines:
    the score line, the status line, an empty part, the heading
    "Detailed Feedback:" and the detailed feedback; then, for the passed
    criteria, the failed criteria and the suggestions in this order, nothing
    when the list is empty and otherwise an empty part, the list's heading
    and one bullet per entry in the order given.  So the text has five parts
    plus one per entry plus two per non-empty list, and every entry appears
    as a bullet, passed criteria first, suggestions last. *)
Theorem feedback_lists_every_entry :
  ∀ format_percent self,
    let block := λ (heading : string) (entries : list string),
      match entries with
      | [] => []
      | _ :: _ => "" :: heading :: ((λ entry, "  â€¢ " +:+ entry) <$> entries)
      end in
    ∃ parts,
      Validation.generate_student_feedback format_percent self
        = String.concat (String (Ascii.ascii_of_nat 10) "") parts ∧
      parts =
        [ "Score: " +:+ format_percent (Validation.score self);
          "Status: " +:+ (if Validation.is_valid self
                          then "âœ… Passed" else "âŒ Failed");
          "";
          "Detailed Feedback:";
          Validation.detailed_feedback self ]
        ++ block "âœ… Passed Criteria:" (Validation.passed_criteria self)
        ++ block "âŒ Failed Criteria:" (Validation.failed_criteria self)
        ++ block "ðŸ’¡ Suggestions for Improvement:"
                 (Validation.suggestions self) ∧
      length parts
        = 5 + length (Validation.passed_criteria self)
            + length (Validation.failed_criteria self)
            + length (Validation.suggestions self)
            + 2 * length (filter (λ entries, entries ≠ [])
                            [Validation.passed_criteria self;
                             Validation.failed_criteria self;
                             Validation.suggestions self]) ∧
      ((λ entry, "  â€¢ " +:+ entry) <$>
         (Validation.passed_criteria self ++ Validation.failed_criteria self
          ++ Validation.suggestions self)) `sublist_of` parts.
Proof.
  intros format_percent self block.
  exists (Validation.feedback_parts format_percent self).
  split; [done|]. split; [reflexivity|].
  unfold Validation.feedback_parts. split.
  - rewrite !length_app, !listing_length. simpl length at 1.
    rewrite !filter_cons, filter_nil.
    repeat case_decide; simpl; (lia || congruence).
  - rewrite !fmap_app. apply sublist_inserts_l.
    repeat apply sublist_app; apply listing_bullets.
Qed.

(** ** The transition on a shared message list *)

Section SharedHistory.
Import InPlace.

Implicit Types (heap : gmap loc (list Chatbot.BaseMessage)) (l : loc).




End SharedHistory.

